(** * Data reliability and normalisation layer ([data_utils.py])

    A shallow embedding of the validators, sanitizers, recency filters and
    numeric formatters of [data_utils.py], together with the part of the
    Python run time they rely on: exceptions, binary64 floats, [round],
    the [f] and [,] format specifications, [str.strip], [str.lower],
    [datetime.strptime] and date arithmetic. *)

From Stdlib Require Import ZArith List String Ascii Bool Lia.
From Stdlib Require Import Floats.SpecFloat.
Import ListNotations.
Open Scope Z_scope.

(** ** Exceptions and results *)

Inductive exn : Type :=
| AttributeError
| TypeError
| ValueError
| OverflowError.

Inductive result (A : Type) : Type :=
| Ok (a : A)
| Raise (e : exn).
Arguments Ok {A} a.
Arguments Raise {A} e.

Definition bind {A B : Type} (r : result A) (k : A -> result B) : result B :=
  match r with
  | Ok a => k a
  | Raise e => Raise e
  end.

Notation "x <- r ;; k" := (bind r (fun x => k))
  (at level 61, r at next level, right associativity).

(** ** Python floats: IEEE 754 binary64 *)

Module F64.

Definition float := spec_float.

Definition prec : Z := 53.
Definition emax : Z := 1024.

Definition of_Z (z : Z) : float := binary_normalize prec emax z 0 false.

Definition mul : float -> float -> float := SFmul prec emax.
Definition div : float -> float -> float := SFdiv prec emax.
Definition abs : float -> float := SFabs.

Definition ltb : float -> float -> bool := SFltb.
Definition leb : float -> float -> bool := SFleb.
Definition gtb (x y : float) : bool := SFltb y x.
Definition geb (x y : float) : bool := SFleb y x.

Definition is_nan (x : float) : bool :=
  match x with S754_nan => true | _ => false end.

Definition is_finite (x : float) : bool :=
  match x with S754_zero _ | S754_finite _ _ _ => true | _ => false end.

(** The literals of the source and of the examples.  A decimal literal
    denotes the double nearest to it. *)
Definition zero : float := S754_zero false.
Definition one : float := of_Z 1.
Definition lit_0_04 : float := S754_finite false 5764607523034235 (-57).
Definition lit_0_25 : float := S754_finite false 4503599627370496 (-54).
Definition lit_0_5 : float := S754_finite false 4503599627370496 (-53).

End F64.

Abbreviation float := F64.float.

Declare Scope f64_scope.
Delimit Scope f64_scope with f64.
Infix "<?" := F64.ltb : f64_scope.
Infix "<=?" := F64.leb : f64_scope.
Infix ">?" := F64.gtb : f64_scope.
Infix ">=?" := F64.geb : f64_scope.
Infix "*" := F64.mul : f64_scope.
Infix "/" := F64.div : f64_scope.

(** ** [sanitize_dividend_yield]

    [raw] is annotated [Optional[float]]; an integer argument takes the same
    branches as the float of the same value. *)

Definition sanitize_dividend_yield (raw : option float) : option float :=
  match raw with
  | None => None
  | Some raw =>
      if (raw <? F64.of_Z 0)%f64 then None
      else if (raw >? F64.of_Z 1000)%f64 then None
      else if (raw >? F64.of_Z 50)%f64 then None
      else if (raw >? F64.of_Z 1)%f64 then
        let normalized := (raw / F64.of_Z 100)%f64 in
        if (normalized <=? F64.lit_0_25)%f64 then Some normalized else None
      else Some raw
  end.

(** ** Dates *)

Record date : Type := { year : Z; month : Z; day : Z }.

Definition is_leap (y : Z) : bool :=
  (y mod 4 =? 0) && (negb (y mod 100 =? 0) || (y mod 400 =? 0)).

Definition days_in_month (y m : Z) : Z :=
  if m =? 2 then (if is_leap y then 29 else 28)
  else if (m =? 4) || (m =? 6) || (m =? 9) || (m =? 11) then 30
  else 31.

Definition days_before_year (y : Z) : Z :=
  let y := y - 1 in y * 365 + y / 4 - y / 100 + y / 400.

Fixpoint days_before_month_nat (y : Z) (m : nat) : Z :=
  match m with
  | O => 0
  | S m' => days_before_month_nat y m' + days_in_month y (Z.of_nat m)
  end.

Definition days_before_month (y m : Z) : Z :=
  days_before_month_nat y (Z.to_nat (m - 1)).

(** [d.toordinal()] *)
Definition toordinal (d : date) : Z :=
  days_before_year (year d) + days_before_month (year d) (month d) + day d.

(** [datetime.date(y, m, d)], [None] standing for [ValueError]. *)
Definition make_date (y m d : Z) : option date :=
  if (1 <=? y) && (y <=? 9999) && (1 <=? m) && (m <=? 12)
     && (1 <=? d) && (d <=? days_in_month y m)
  then Some {| year := y; month := m; day := d |}
  else None.

(** [(a - b).days] *)
Definition date_sub (a b : date) : Z := toordinal a - toordinal b.

(** [timedelta(days=n)], as its number of days. *)
Definition timedelta_days (n : Z) : result Z :=
  if Z.abs n <=? 999999999 then Ok n else Raise OverflowError.


(** ** Python values handed to the formatters

    The formatters are called on loosely typed attributes; [VOther] stands
    for an object with no numeric protocol and no format specification of
    its own (a list, a dict, ...). *)

Inductive value : Type :=
| VNone
| VBool (b : bool)
| VInt (z : Z)
| VFloat (f : float)
| VStr (s : string)
| VOther.

(** The functions of the Python library whose result on a string the
    embedding does not compute: [float(s)] and
    [datetime.fromisoformat(s).date()], [None] standing for [ValueError]. *)
Class PyLib : Type := {
  float_of_str : string -> option float;
  date_fromisoformat : string -> option date
}.

(** [float(int)]: the nearest double, [OverflowError] beyond the range. *)
Definition float_of_int (z : Z) : result float :=
  match F64.of_Z z with
  | S754_infinity _ => Raise OverflowError
  | f => Ok f
  end.

(** [float(raw)] *)
Definition py_float `{L : PyLib} (raw : value) : result float :=
  match raw with
  | VNone => Raise TypeError
  | VBool b => Ok (F64.of_Z (if b then 1 else 0))
  | VInt z => float_of_int z
  | VFloat f => Ok f
  | VStr s =>
      match float_of_str s with
      | Some f => Ok f
      | None => Raise ValueError
      end
  | VOther => Raise TypeError
  end.

(** [p / q] rounded to the nearest integer, ties to the even one; [q > 0]. *)
Definition div_round_half_even (p q : Z) : Z :=
  let n := p / q in
  match 2 * (p mod q) ?= q with
  | Lt => n
  | Gt => n + 1
  | Eq => if Z.even n then n else n + 1
  end.

(** [round(f)] with no [ndigits]: an [int], ties to even. *)
Definition py_round (f : float) : result Z :=
  match f with
  | S754_nan => Raise ValueError
  | S754_infinity _ => Raise OverflowError
  | S754_zero _ => Ok 0
  | S754_finite s m e =>
      let n := if 0 <=? e then Z.pos m * 2 ^ e
               else div_round_half_even (Z.pos m) (2 ^ (- e)) in
      Ok (if s then - n else n)
  end.

(** ** Rendering numbers *)

Definition digit_char (d : Z) : ascii := ascii_of_N (48 + Z.to_N d).

Fixpoint digits_fuel (fuel : nat) (n : Z) (acc : list ascii) : list ascii :=
  match fuel with
  | O => acc
  | S fuel' =>
      let acc' := digit_char (n mod 10) :: acc in
      if n / 10 =? 0 then acc' else digits_fuel fuel' (n / 10) acc'
  end.

(** The decimal digits of [n >= 0], most significant first. *)
Definition digits (n : Z) : list ascii :=
  digits_fuel (S (Z.to_nat (Z.log2 n))) n [].

(** Exactly [d] decimal digits of [n], zero padded on the left. *)
Fixpoint frac_digits (d : nat) (n : Z) : list ascii :=
  match d with
  | O => []
  | S d' => frac_digits d' (n / 10) ++ [digit_char (n mod 10)]
  end.

(** A comma after every third digit, on the digits least significant
    first. *)
Fixpoint group3_rev (l : list ascii) : list ascii :=
  match l with
  | a :: b :: c :: ((_ :: _) as rest) =>
      a :: b :: c :: ","%char :: group3_rev rest
  | _ => l
  end.

Definition group_thousands (ds : list ascii) : list ascii :=
  rev (group3_rev (rev ds)).

(** [f"{n:,}"] for an [int]. *)
Definition format_int_comma (n : Z) : string :=
  ((if (n <? 0)%Z then "-" else "") ++
   string_of_list_ascii (group_thousands (digits (Z.abs n))))%string.

(** The value of a finite double times [10 ^ d], rounded to the nearest
    integer, ties to even: the digits a fixed-point rendering shows. *)
Definition scaled_magnitude (m : positive) (e : Z) (d : nat) : Z :=
  if 0 <=? e then Z.pos m * 2 ^ e * 10 ^ Z.of_nat d
  else div_round_half_even (Z.pos m * 10 ^ Z.of_nat d) (2 ^ (- e)).

Definition render_fixed (s : bool) (n : Z) (d : nat) (comma : bool) : string :=
  let int_ds := digits (n / 10 ^ Z.of_nat d) in
  ((if s then "-" else "") ++
   string_of_list_ascii (if comma then group_thousands int_ds else int_ds) ++
   match d with
   | O => ""
   | S _ => "." ++ string_of_list_ascii (frac_digits d (n mod 10 ^ Z.of_nat d))
   end)%string.

Definition INT_MAX : Z := 2147483647.
Definition PY_SSIZE_T_MAX : Z := 9223372036854775807.

(** A double in fixed-point notation with [d] decimals. *)
Definition fixed_point (f : float) (d : nat) (comma : bool) : string :=
  match f with
  | S754_nan => "nan"
  | S754_infinity s => (if s then "-" else "") ++ "inf"
  | S754_zero s => render_fixed s 0 d comma
  | S754_finite s m e => render_fixed s (scaled_magnitude m e d) d comma
  end%string.

(** The precision of a format specification [".{decimals}f"] is read when
    the specification is parsed: a sign in it, or more digits than a
    [Py_ssize_t] holds, is a [ValueError]. *)
Definition precision_parses (decimals : Z) : bool :=
  (0 <=? decimals) && (decimals <=? PY_SSIZE_T_MAX).

(** [format(f, ".{decimals}f")] and [format(f, ",.{decimals}f")]: a
    precision above [INT_MAX] is a [ValueError] as well, raised when the
    double is rendered. *)
Definition format_float_f (f : float) (decimals : Z) (comma : bool)
  : result string :=
  if negb (precision_parses decimals) then Raise ValueError
  else if INT_MAX <? decimals then Raise ValueError
  else Ok (fixed_point f (Z.to_nat decimals) comma).

(** ** The formatters *)

Definition NA : string := "N/A".

Definition format_percent `{L : PyLib}
    (raw : value) (decimals : Z) (assume_fractional : bool) : result string :=
  match raw with
  | VNone => Ok NA
  | _ =>
      match py_float raw with
      | Raise TypeError | Raise ValueError => Ok NA
      | Raise e => Raise e
      | Ok value =>
          let value :=
            if assume_fractional || (F64.abs value <=? F64.of_Z 1)%f64
            then (value * F64.of_Z 100)%f64 else value in
          s <- format_float_f value decimals false ;;
          Ok (s ++ "%")%string
      end
  end.

Definition format_ratio (raw : value) (decimals : Z) : result string :=
  match raw with
  | VNone => Ok NA
  | VFloat f => format_float_f f decimals false
  | VInt z =>
      if negb (precision_parses decimals) then Raise ValueError
      else f <- float_of_int z ;; format_float_f f decimals false
  | VBool b => format_float_f (F64.of_Z (if b then 1 else 0)) decimals false
  | VStr _ => Raise ValueError
  | VOther => Raise TypeError
  end.

Definition format_currency `{L : PyLib} (raw : value) : result string :=
  match raw with
  | VNone => Ok NA
  | _ =>
      match py_float raw with
      | Raise TypeError | Raise ValueError => Ok NA
      | Raise e => Raise e
      | Ok value =>
          s <- format_float_f value 2 true ;;
          Ok ("$" ++ s)%string
      end
  end.

Definition format_integer `{L : PyLib} (raw : value) : result string :=
  match raw with
  | VNone => Ok NA
  | _ =>
      match (f <- py_float raw ;;
             n <- py_round f ;;
             Ok (format_int_comma n)) with
      | Raise TypeError | Raise ValueError => Ok NA
      | r => r
      end
  end.


(** ** Loosely typed records

    An attribute of a record handed over by an agent is missing from the
    object ([NoAttr]), present and [None] ([Attr None]), or present with a
    value of the type the data model gives it. *)

Inductive attr (A : Type) : Type :=
| NoAttr
| Attr (v : option A).
Arguments NoAttr {A}.
Arguments Attr {A} v.

(** [obj.name] *)
Definition get {A : Type} (a : attr A) : result (option A) :=
  match a with
  | NoAttr => Raise AttributeError
  | Attr v => Ok v
  end.

(** [getattr(obj, "name", default)] *)
Definition getattr {A : Type} (a : attr A) (default : A) : option A :=
  match a with
  | NoAttr => Some default
  | Attr v => v
  end.

Record PriceAnalysis : Type := {
  total_return_percent : attr float;
  volatility : attr float;
  min_price : attr float;
  max_price : attr float;
  average_volume : attr float;
  trend_direction : attr string
}.

Record Article : Type := {
  article_title : string;
  article_source : string;
  article_content : string;
  published_date : attr string
}.

Record InsiderTransaction : Type := {
  name : attr string;
  title : string;
  transaction_type : string;
  shares : Z;
  transaction_date : attr string
}.

(** ** [is_price_analysis_reliable] *)

(** [a is None], reading the attribute. *)
Definition is_None {A : Type} (a : attr A) : result bool :=
  v <- get a ;;
  Ok match v with None => true | Some _ => false end.

(** A test of the number held by an attribute; comparing [None] with a
    number is a [TypeError]. *)
Definition test (a : attr float) (p : float -> bool) : result bool :=
  v <- get a ;;
  match v with
  | Some x => Ok (p x)
  | None => Raise TypeError
  end.

Definition test2 (a b : attr float) (p : float -> float -> bool)
  : result bool :=
  v <- get a ;;
  w <- get b ;;
  match v, w with
  | Some x, Some y => Ok (p x y)
  | _, _ => Raise TypeError
  end.

(** Short-circuit [or]. *)
Definition or_else (a b : result bool) : result bool :=
  x <- a ;; if x then Ok true else b.

Infix "|||" := or_else (at level 50, left associativity).

Definition price_analysis_checks (pa : option PriceAnalysis) : result bool :=
  match pa with
  | None => Ok false
  | Some pa =>
      c1 <- is_None (total_return_percent pa)
            ||| test (total_return_percent pa)
                  (fun x => (F64.abs x >? F64.of_Z 400)%f64) ;;
      if c1 then Ok false else
      c2 <- is_None (volatility pa)
            ||| test (volatility pa) (fun x => (x <? F64.of_Z 0)%f64)
            ||| test (volatility pa) (fun x => (x >? F64.of_Z 200)%f64) ;;
      if c2 then Ok false else
      c3 <- is_None (min_price pa)
            ||| is_None (max_price pa)
            ||| test (min_price pa) (fun x => (x <=? F64.of_Z 0)%f64)
            ||| test (max_price pa) (fun x => (x <=? F64.of_Z 0)%f64) ;;
      if c3 then Ok false else
      c4 <- test2 (min_price pa) (max_price pa) F64.geb ;;
      if c4 then Ok false else
      c5 <- is_None (average_volume pa)
            ||| test (average_volume pa) (fun x => (x <=? F64.of_Z 0)%f64) ;;
      if c5 then Ok false else
      Ok true
  end.

Definition is_price_analysis_reliable (pa : option PriceAnalysis)
  : result bool :=
  match price_analysis_checks pa with
  | Raise AttributeError => Ok false
  | r => r
  end.


(** ** Strings

    A string is a sequence of code points below 256. *)

Definition code (c : ascii) : N := N_of_ascii c.

(** [str.isspace] on one character, which is also [\s] of [re]. *)
Definition is_space (c : ascii) : bool :=
  let n := code c in
  (((9 <=? n) && (n <=? 13)) || ((28 <=? n) && (n <=? 32))
   || (n =? 133) || (n =? 160))%N.

Definition lower_char (c : ascii) : ascii :=
  let n := code c in
  if (((65 <=? n) && (n <=? 90))
      || ((192 <=? n) && (n <=? 222) && negb (n =? 215)))%N
  then ascii_of_N (n + 32) else c.

Fixpoint lstrip (l : list ascii) : list ascii :=
  match l with
  | c :: l' => if is_space c then lstrip l' else l
  | [] => []
  end.

(** [s.strip()] *)
Definition strip (s : string) : string :=
  string_of_list_ascii
    (rev (lstrip (rev (lstrip (list_ascii_of_string s))))).

(** [s.lower()] *)
Definition lower (s : string) : string :=
  string_of_list_ascii (map lower_char (list_ascii_of_string s)).

(** [s.replace("Z", "+00:00")] *)
Fixpoint replace_Z (s : string) : string :=
  match s with
  | EmptyString => EmptyString
  | String c s' =>
      if Ascii.eqb c "Z" then ("+00:00" ++ replace_Z s')%string
      else String c (replace_Z s')
  end.

(** Truth value of a string: [not value] holds of [None] and of [""]. *)
Definition falsy (v : option string) : bool :=
  match v with
  | None => true
  | Some s => String.eqb s ""
  end.

(** ** [datetime.strptime]

    [strptime] turns the format into a regular expression, matched case
    insensitively at the start of the string by backtracking; the first
    match found has to end where the string ends.  A matcher returns the
    ways it can match a prefix, in the order backtracking tries them. *)

Definition matcher (A : Type) : Type := list ascii -> list (A * list ascii).

Definition digit_val (c : ascii) : option Z :=
  let n := code c in
  if ((48 <=? n) && (n <=? 57))%N then Some (Z.of_N n - 48) else None.

(** One digit between [lo] and [hi]. *)
Definition digit_in (lo hi : Z) : matcher Z :=
  fun s =>
    match s with
    | c :: rest =>
        match digit_val c with
        | Some v => if (lo <=? v) && (v <=? hi) then [(v, rest)] else []
        | None => []
        end
    | [] => []
    end.

(** Two digits, the first in [[lo1, hi1]], the second in [[lo2, hi2]]. *)
Definition digits2 (lo1 hi1 lo2 hi2 : Z) : matcher Z :=
  fun s =>
    flat_map (fun '(a, rest) =>
                map (fun '(b, rest') => (10 * a + b, rest'))
                    (digit_in lo2 hi2 rest))
             (digit_in lo1 hi1 s).

Definition alt {A : Type} (p q : matcher A) : matcher A :=
  fun s => p s ++ q s.

(** A literal character of the format, matched ignoring case. *)
Definition lit (c : ascii) : matcher unit :=
  fun s =>
    match s with
    | x :: rest =>
        if Ascii.eqb (lower_char x) (lower_char c) then [(tt, rest)] else []
    | [] => []
    end.

(** [\s+], the longest run first. *)
Fixpoint spaces_plus (s : list ascii) : list (unit * list ascii) :=
  match s with
  | c :: rest => if is_space c then spaces_plus rest ++ [(tt, rest)] else []
  | [] => []
  end.

(** [\d\d\d\d] *)
Definition re_Y : matcher Z :=
  fun s =>
    flat_map (fun '(a, rest) =>
                map (fun '(b, rest') => (100 * a + b, rest'))
                    (digits2 0 9 0 9 rest))
             (digits2 0 9 0 9 s).

(** [1[0-2]|0[1-9]|[1-9]] *)
Definition re_m : matcher Z :=
  alt (digits2 1 1 0 2) (alt (digits2 0 0 1 9) (digit_in 1 9)).

(** [3[0-1]|[1-2]\d|0[1-9]|[1-9]| [1-9]] *)
Definition re_d : matcher Z :=
  alt (digits2 3 3 0 1)
    (alt (digits2 1 2 0 9)
       (alt (digits2 0 0 1 9)
          (alt (digit_in 1 9)
             (fun s => match s with
                       | " "%char :: rest => digit_in 1 9 rest
                       | _ => []
                       end)))).

(** [2[0-3]|[0-1]\d|\d] *)
Definition re_H : matcher Z :=
  alt (digits2 2 2 0 3) (alt (digits2 0 1 0 9) (digit_in 0 9)).

(** [[0-5]\d|\d] *)
Definition re_M : matcher Z :=
  alt (digits2 0 5 0 9) (digit_in 0 9).

(** [6[0-1]|[0-5]\d|\d] *)
Definition re_S : matcher Z :=
  alt (digits2 6 6 0 1) (alt (digits2 0 5 0 9) (digit_in 0 9)).

Inductive item : Type :=
| Directive (c : ascii)
| Spaces
| Literal (c : ascii).

(** The format, cut into directives, runs of white space and literal
    characters. *)
Fixpoint compile (fmt : list ascii) : list item :=
  match fmt with
  | [] => []
  | c :: rest =>
      if Ascii.eqb c "%" then
        match rest with
        | d :: rest' => Directive d :: compile rest'
        | [] => [Literal c]
        end
      else if is_space c then
        match compile rest with
        | Spaces :: items => Spaces :: items
        | items => Spaces :: items
        end
      else Literal c :: compile rest
  end.

Record fields : Type := {
  f_year : Z; f_month : Z; f_day : Z;
  f_hour : Z; f_minute : Z; f_second : Z
}.

Definition default_fields : fields :=
  {| f_year := 1900; f_month := 1; f_day := 1;
     f_hour := 0; f_minute := 0; f_second := 0 |}.

Definition store (k : Z -> fields) (p : matcher Z) : matcher fields :=
  fun s => map (fun '(v, rest) => (k v, rest)) (p s).

(** The ways one item matches; a directive outside the table below is not
    used by the formats of this module. *)
Definition match_item (it : item) (fs : fields) : matcher fields :=
  match it with
  | Literal c => fun s => map (fun '(_, rest) => (fs, rest)) (lit c s)
  | Spaces => fun s => map (fun '(_, rest) => (fs, rest)) (spaces_plus s)
  | Directive c =>
      if Ascii.eqb c "Y" then
        store (fun v => {| f_year := v; f_month := f_month fs;
                           f_day := f_day fs; f_hour := f_hour fs;
                           f_minute := f_minute fs;
                           f_second := f_second fs |}) re_Y
      else if Ascii.eqb c "m" then
        store (fun v => {| f_year := f_year fs; f_month := v;
                           f_day := f_day fs; f_hour := f_hour fs;
                           f_minute := f_minute fs;
                           f_second := f_second fs |}) re_m
      else if Ascii.eqb c "d" then
        store (fun v => {| f_year := f_year fs; f_month := f_month fs;
                           f_day := v; f_hour := f_hour fs;
                           f_minute := f_minute fs;
                           f_second := f_second fs |}) re_d
      else if Ascii.eqb c "H" then
        store (fun v => {| f_year := f_year fs; f_month := f_month fs;
                           f_day := f_day fs; f_hour := v;
                           f_minute := f_minute fs;
                           f_second := f_second fs |}) re_H
      else if Ascii.eqb c "M" then
        store (fun v => {| f_year := f_year fs; f_month := f_month fs;
                           f_day := f_day fs; f_hour := f_hour fs;
                           f_minute := v;
                           f_second := f_second fs |}) re_M
      else if Ascii.eqb c "S" then
        store (fun v => {| f_year := f_year fs; f_month := f_month fs;
                           f_day := f_day fs; f_hour := f_hour fs;
                           f_minute := f_minute fs;
                           f_second := v |}) re_S
      else fun _ => []
  end.

Fixpoint match_items (items : list item) (fs : fields) : matcher fields :=
  match items with
  | [] => fun s => [(fs, s)]
  | it :: items' =>
      fun s =>
        flat_map (fun '(fs', rest) => match_items items' fs' rest)
                 (match_item it fs s)
  end.

(** [datetime.datetime.strptime(value, fmt).date()], [None] standing for
    [ValueError]: no match, unconverted data after the first match, a day
    that does not exist, or a second above 59. *)
Definition strptime_date (value fmt : string) : option date :=
  match match_items (compile (list_ascii_of_string fmt)) default_fields
          (list_ascii_of_string value) with
  | (fs, []) :: _ =>
      match make_date (f_year fs) (f_month fs) (f_day fs) with
      | Some d => if f_second fs <=? 59 then Some d else None
      | None => None
      end
  | _ => None
  end.

(** The [for fmt in (...)] loop: the first format that parses. *)
Fixpoint first_format (fmts : list string) (value : string) : option date :=
  match fmts with
  | [] => None
  | fmt :: fmts' =>
      match strptime_date value fmt with
      | Some d => Some d
      | None => first_format fmts' value
      end
  end.

(** ** [filter_recent_articles] *)

Definition _parse_date `{L : PyLib} (value : option string) : option date :=
  if falsy value then None
  else
    match value with
    | None => None
    | Some value =>
        let value := strip value in
        match first_format
                ["%Y-%m-%d"; "%Y-%m-%dT%H:%M:%SZ"; "%Y-%m-%dT%H:%M:%S";
                 "%Y-%m-%d %H:%M:%S"]%string value with
        | Some d => Some d
        | None => date_fromisoformat (replace_Z value)
        end
    end.

(** [xs or []] *)
Definition or_empty {A : Type} (xs : option (list A)) : list A :=
  match xs with
  | Some l => l
  | None => []
  end.

Fixpoint recent_articles_loop `{L : PyLib} (as_of : date) (max_age_days : Z)
    (articles recent : list Article) : result (list Article) :=
  match articles with
  | [] => Ok recent
  | article :: rest =>
      match _parse_date (getattr (published_date article) ""%string) with
      | None => recent_articles_loop as_of max_age_days rest recent
      | Some published_on =>
          limit <- timedelta_days max_age_days ;;
          if date_sub as_of published_on >? limit
          then recent_articles_loop as_of max_age_days rest recent
          else recent_articles_loop as_of max_age_days rest
                 (recent ++ [article])
      end
  end.

Definition filter_recent_articles `{L : PyLib}
    (articles : option (list Article)) (as_of : date) (max_age_days : Z)
  : result (list Article) :=
  recent_articles_loop as_of max_age_days (or_empty articles) [].

(** ** [filter_valid_transactions] *)

Definition PLACEHOLDER_NAMES : list string :=
  ["john doe"; "jane smith"; "alice johnson"]%string.

Definition is_placeholder (n : string) : bool :=
  existsb (String.eqb n) PLACEHOLDER_NAMES.

Fixpoint valid_transactions_loop (transactions valid : list InsiderTransaction)
  : result (list InsiderTransaction) :=
  match transactions with
  | [] => Ok valid
  | txn :: rest =>
      match getattr (name txn) ""%string with
      | None => Raise AttributeError
      | Some s =>
          let name := lower (strip s) in
          if String.eqb name "" || is_placeholder name
          then valid_transactions_loop rest valid
          else valid_transactions_loop rest (valid ++ [txn])
      end
  end.

Definition filter_valid_transactions
    (transactions : option (list InsiderTransaction))
  : result (list InsiderTransaction) :=
  valid_transactions_loop (or_empty transactions) [].

(** ** [filter_recent_transactions] *)

Definition _parse `{L : PyLib} (value : option string) : option date :=
  if falsy value then None
  else
    match value with
    | None => None
    | Some value =>
        let value := strip value in
        match first_format
                ["%Y-%m-%d"; "%Y-%m-%dT%H:%M:%SZ"; "%Y-%m-%d %H:%M:%S"]%string
                value with
        | Some d => Some d
        | None => date_fromisoformat (replace_Z value)
        end
    end.

Fixpoint recent_transactions_loop `{L : PyLib} (as_of : date) (max_age_days : Z)
    (transactions recent : list InsiderTransaction)
  : result (list InsiderTransaction) :=
  match transactions with
  | [] => Ok recent
  | txn :: rest =>
      match _parse (getattr (transaction_date txn) ""%string) with
      | None => recent_transactions_loop as_of max_age_days rest recent
      | Some txn_date =>
          limit <- timedelta_days max_age_days ;;
          if date_sub as_of txn_date >? limit
          then recent_transactions_loop as_of max_age_days rest recent
          else recent_transactions_loop as_of max_age_days rest
                 (recent ++ [txn])
      end
  end.

Definition filter_recent_transactions `{L : PyLib}
    (transactions : option (list InsiderTransaction))
    (as_of : date) (max_age_days : Z) : result (list InsiderTransaction) :=
  valid <- filter_valid_transactions transactions ;;
  recent_transactions_loop as_of max_age_days valid [].


(** ** Vocabulary of the statements *)

(** An attribute that is missing or [None]. *)
Definition absent {A : Type} (a : attr A) : Prop :=
  a = NoAttr \/ a = Attr None.

(** An attribute that holds a number satisfying [p]. *)
Definition holds (a : attr float) (p : float -> bool) : Prop :=
  exists x, a = Attr (Some x) /\ p x = true.

(** The exact value of a finite double is [float_num f / float_den f]. *)
Definition float_num (f : float) : Z :=
  match f with
  | S754_finite s m e =>
      let n := if 0 <=? e then Z.pos m * 2 ^ e else Z.pos m in
      if s then - n else n
  | _ => 0
  end.

Definition float_den (f : float) : Z :=
  match f with
  | S754_finite _ _ e => if 0 <=? e then 1 else 2 ^ (- e)
  | _ => 1
  end.

(** [n] is an integer nearest to [num / den], the even one when two are. *)
Definition nearest_ties_even (num den n : Z) : Prop :=
  2 * Z.abs (n * den - num) <= den /\
  (2 * Z.abs (n * den - num) = den -> Z.even n = true).

(** [n] is an integer nearest to [num / den], the one away from zero when
    two are. *)
Definition nearest_ties_away (num den n : Z) : Prop :=
  2 * Z.abs (n * den - num) <= den /\
  (2 * Z.abs (n * den - num) = den -> Z.abs num < Z.abs (n * den)).

(** The number of characters after the decimal point, 0 without one. *)
Fixpoint decimals_shown (s : list ascii) : nat :=
  match s with
  | [] => 0
  | c :: s' => if Ascii.eqb c "." then List.length s' else decimals_shown s'
  end.

(** The number a sequence of digit characters denotes. *)
Definition digits_value (l : list ascii) : Z :=
  fold_left (fun acc c => 10 * acc + (Z.of_N (code c) - 48)) l 0.

Definition not_comma (c : ascii) : bool := negb (Ascii.eqb c ",").

(** The integer a text with thousands separators denotes. *)
Definition int_of_text (s : string) : Z :=
  match filter not_comma (list_ascii_of_string s) with
  | [] => 0
  | c :: ds =>
      if Ascii.eqb c "-" then - digits_value ds else digits_value (c :: ds)
  end.

Definition is_digit (c : ascii) : bool :=
  match digit_val c with
  | Some _ => true
  | None => false
  end.

(** The digits of a text, without its sign, point and separators. *)
Definition digits_of_text (s : string) : list ascii :=
  filter is_digit (list_ascii_of_string s).

(** The article has a date that parses and lies within the window. *)
Definition article_is_recent `{L : PyLib} (as_of : date) (max_age_days : Z)
    (a : Article) : bool :=
  match _parse_date (getattr (published_date a) ""%string) with
  | Some published => date_sub as_of published <=? max_age_days
  | None => false
  end.

(** The name is a string that is neither blank nor a placeholder. *)
Definition transaction_is_valid (t : InsiderTransaction) : bool :=
  match getattr (name t) ""%string with
  | Some s =>
      negb (String.eqb (lower (strip s)) "" || is_placeholder (lower (strip s)))
  | None => false
  end.

Definition transaction_is_recent `{L : PyLib} (as_of : date) (max_age_days : Z)
    (t : InsiderTransaction) : bool :=
  match _parse (getattr (transaction_date t) ""%string) with
  | Some txn_date => date_sub as_of txn_date <=? max_age_days
  | None => false
  end.

(** [raw] is absent or [float(raw)] fails with one of the two errors the
    formatters catch. *)
Definition not_coercible `{L : PyLib} (raw : value) : Prop :=
  raw = VNone \/ py_float raw = Raise TypeError \/
  py_float raw = Raise ValueError.

(** The two recency loops have one shape, which differs in how the date of
    a record is read. *)
Definition within_window {A : Type} (date_of : A -> option date)
    (as_of : date) (max_age_days : Z) (x : A) : bool :=
  match date_of x with
  | Some d => date_sub as_of d <=? max_age_days
  | None => false
  end.

Fixpoint window_loop {A : Type} (date_of : A -> option date)
    (as_of : date) (max_age_days : Z) (xs recent : list A)
  : result (list A) :=
  match xs with
  | [] => Ok recent
  | x :: rest =>
      match date_of x with
      | None => window_loop date_of as_of max_age_days rest recent
      | Some d =>
          limit <- timedelta_days max_age_days ;;
          if date_sub as_of d >? limit
          then window_loop date_of as_of max_age_days rest recent
          else window_loop date_of as_of max_age_days rest (recent ++ [x])
      end
  end.

Definition article_date `{L : PyLib} (a : Article) : option date :=
  _parse_date (getattr (published_date a) ""%string).

Definition transaction_date_of `{L : PyLib} (t : InsiderTransaction)
  : option date :=
  _parse (getattr (transaction_date t) ""%string).


(** ** Values of the examples *)

Definition lit_1234_5 : float := S754_finite false 5429388417957888 (-42).
Definition lit_50 : float := F64.of_Z 50.

Definition well_formed_record : PriceAnalysis :=
  {| total_return_percent := Attr (Some (F64.of_Z 15));
     volatility := Attr (Some (F64.of_Z 20));
     min_price := Attr (Some (F64.of_Z 100));
     max_price := Attr (Some (F64.of_Z 200));
     average_volume := Attr (Some (F64.of_Z 1000));
     trend_direction := Attr (Some "up"%string) |}.

Definition article_dated (d : attr string) : Article :=
  {| article_title := "title"; article_source := "source";
     article_content := "content"; published_date := d |}.

Definition transaction_of (n d : attr string) : InsiderTransaction :=
  {| name := n; title := "CFO"; transaction_type := "Sale"; shares := 100;
     transaction_date := d |}.

Definition june_1_2024 : date := {| year := 2024; month := 6; day := 1 |}.

(** A library for the examples: [float] of a string reads unsigned decimal
    integers, [fromisoformat] reads [YYYY-MM-DD]. *)
Fixpoint read_digits (s : list ascii) (acc : Z) : option Z :=
  match s with
  | [] => Some acc
  | c :: s' =>
      match digit_val c with
      | Some v => read_digits s' (10 * acc + v)
      | None => None
      end
  end.

Definition plain_float_of_str (s : string) : option float :=
  match list_ascii_of_string (strip s) with
  | [] => None
  | l =>
      match read_digits l 0 with
      | Some z => Some (F64.of_Z z)
      | None => None
      end
  end.

Definition plain_fromisoformat (s : string) : option date :=
  match list_ascii_of_string s with
  | [y1; y2; y3; y4; "-"; m1; m2; "-"; d1; d2]%char =>
      match read_digits [y1; y2; y3; y4] 0, read_digits [m1; m2] 0,
            read_digits [d1; d2] 0 with
      | Some y, Some m, Some d => make_date y m d
      | _, _, _ => None
      end
  | _ => None
  end.

Definition plain_lib : PyLib :=
  {| float_of_str := plain_float_of_str;
     date_fromisoformat := plain_fromisoformat |}.

Arguments F64.of_Z : simpl never.
Arguments F64.mul : simpl never.
Arguments F64.div : simpl never.
Arguments F64.abs : simpl never.
Arguments F64.ltb : simpl never.
Arguments F64.leb : simpl never.
Arguments F64.gtb : simpl never.
Arguments F64.geb : simpl never.


(** ** [is_valid_volatility_metrics] *)

Record VolatilityMetrics : Type := {
  historical_volatility : attr float;
  max_drawdown : attr float;
  metrics_beta : attr float;
  sharpe_ratio : attr float;
  volatility_regime : attr string
}.

(** [getattr(obj, "name", None)] *)
Definition getattr_None {A : Type} (a : attr A) : option A :=
  match a with
  | NoAttr => None
  | Attr v => v
  end.

(** A test of a local variable that holds a number or [None]. *)
Definition test_value (v : option float) (p : float -> bool) : result bool :=
  match v with
  | Some x => Ok (p x)
  | None => Raise TypeError
  end.

Definition volatility_checks (metrics : option VolatilityMetrics)
  : result bool :=
  match metrics with
  | None => Ok false
  | Some metrics =>
      let hv := getattr_None (historical_volatility metrics) in
      c1 <- Ok (match hv with None => true | Some _ => false end)
            ||| test_value hv (fun x => (x <? F64.of_Z 0)%f64)
            ||| test_value hv (fun x => (x >? F64.of_Z 250)%f64) ;;
      if c1 then Ok false else
      let md := getattr_None (max_drawdown metrics) in
      c2 <- Ok (match md with None => true | Some _ => false end)
            ||| test_value md (fun x => (x >? F64.of_Z 0)%f64)
            ||| test_value md (fun x => (x <? F64.of_Z (-100))%f64) ;;
      if c2 then Ok false else
      Ok true
  end.

Definition is_valid_volatility_metrics (metrics : option VolatilityMetrics)
  : result bool :=
  match volatility_checks metrics with
  | Raise AttributeError => Ok false
  | r => r
  end.

(** ** Callers in [report_generator.py] *)

Definition nl : string := String (ascii_of_nat 10) EmptyString.


(** A number read from a record, as the formatters receive it. *)
Definition value_of (v : option float) : value :=
  match v with
  | Some x => VFloat x
  | None => VNone
  end.

(** The price-analysis lines of [_generate_historical_section]; [title] is
    [str.title]. *)
Definition price_analysis_block `{L : PyLib} (title : string -> string)
    (price_analysis : attr PriceAnalysis) : result string :=
  let pa := getattr_None price_analysis in
  let section := ("### Price Analysis" ++ nl)%string in
  guard <- match pa with
           | None => Ok false
           | Some _ => is_price_analysis_reliable pa
           end ;;
  match pa, guard with
  | Some pa, true =>
      v <- get (total_return_percent pa) ;;
      s <- format_percent (value_of v) 2 false ;;
      let section :=
        (section ++ "- **Total Return (1y):** " ++ s ++ nl)%string in
      v <- get (volatility pa) ;;
      s <- format_percent (value_of v) 2 false ;;
      let section := (section ++ "- **Volatility:** " ++ s ++ nl)%string in
      v <- get (min_price pa) ;;
      lo <- format_currency (value_of v) ;;
      v <- get (max_price pa) ;;
      hi <- format_currency (value_of v) ;;
      let section :=
        (section ++ "- **Price Range (1y):** " ++ lo ++ " - " ++ hi ++ nl)
        %string in
      v <- get (average_volume pa) ;;
      s <- format_integer (value_of v) ;;
      let section :=
        (section ++ "- **Average Volume:** " ++ s ++ nl)%string in
      v <- get (trend_direction pa) ;;
      match v with
      | None => Raise AttributeError
      | Some direction =>
          Ok (section ++ "- **Trend Direction:** " ++ title direction
              ++ nl ++ nl)%string
      end
  | _, _ =>
      Ok (section ++ "Data unavailable or did not meet quality checks."
          ++ nl ++ nl)%string
  end.


(** [s.rstrip()] *)
Definition rstrip (s : string) : string :=
  string_of_list_ascii (rev (lstrip (rev (list_ascii_of_string s)))).

(** [s[:n]] *)
Definition prefix (n : nat) (s : string) : string :=
  string_of_list_ascii (firstn n (list_ascii_of_string s)).

(** [x or ""] *)
Definition or_empty_string (x : option string) : string :=
  match x with
  | Some s => s
  | None => ""
  end.

(** The snippet of an article in [_generate_news_section]. *)
Definition snippet_of (content : option string) : string :=
  let snippet := strip (or_empty_string content) in
  if (240 <? String.length snippet)%nat
  then (rstrip (prefix 237 snippet) ++ "...")%string
  else snippet.




(** ** Vocabulary of the further statements *)


(** The first lines of the two blocks and their fallback lines. *)
Definition price_header : string := "### Price Analysis" ++ nl.
Definition unavailable : string :=
  "Data unavailable or did not meet quality checks." ++ nl ++ nl.

(** The input is an [int] too large for a double. *)
Definition int_overflows (raw : value) : Prop :=
  exists z, raw = VInt z /\ float_of_int z = Raise OverflowError.

(** The input is a number: a [float], an [int] or a [bool]. *)
Definition is_number (raw : value) : bool :=
  match raw with
  | VFloat _ | VInt _ | VBool _ => true
  | _ => false
  end.

Definition name_is_None (t : InsiderTransaction) : bool :=
  match name t with
  | Attr None => true
  | _ => false
  end.

Definition has_date `{L : PyLib} (a : Article) : bool :=
  match article_date a with
  | Some _ => true
  | None => false
  end.


(** * Properties *)

(** ** Facts about binary64 comparisons *)

Lemma SFcompare_antisym (x y : float) (c : comparison) :
  SFcompare x y = Some c -> SFcompare y x = Some (CompOpp c).
Proof.
  destruct x as [sx|sx| |sx mx ex], y as [sy|sy| |sy my ey]; simpl;
    try discriminate;
    try (intros H; injection H as <-;
         repeat match goal with b : bool |- _ => destruct b end; reflexivity).
  intros H; injection H as <-. f_equal.
  destruct sx, sy; try reflexivity;
    rewrite (Z.compare_antisym ex ey);
    destruct (ex ?= ey); simpl; try reflexivity;
    change (Pos.compare_cont Eq my mx)
      with (Pos.compare_cont (CompOpp Eq) my mx);
    rewrite <- (Pos.compare_cont_antisym mx my Eq);
    destruct (Pos.compare_cont Eq mx my); reflexivity.
Qed.

Lemma SFcompare_total (x y : float) :
  F64.is_nan x = false -> F64.is_nan y = false ->
  exists c, SFcompare x y = Some c.
Proof.
  destruct x, y; simpl; try discriminate; intros _ _; eexists; reflexivity.
Qed.

Lemma ltb_false_geb (x y : float) :
  F64.is_nan x = false -> F64.is_nan y = false ->
  (x <? y)%f64 = false -> (x >=? y)%f64 = true.
Proof.
  intros Hx Hy. unfold F64.ltb, F64.geb, SFltb, SFleb.
  destruct (SFcompare_total x y Hx Hy) as [c Hc].
  rewrite Hc, (SFcompare_antisym _ _ _ Hc).
  destruct c; simpl; congruence.
Qed.

Lemma leb_true_gtb (x y : float) :
  (x <=? y)%f64 = true -> (x >? y)%f64 = false.
Proof.
  unfold F64.leb, F64.gtb, SFltb, SFleb.
  destruct (SFcompare x y) as [c|] eqn:Hc; [|discriminate].
  rewrite (SFcompare_antisym _ _ _ Hc).
  destruct c; simpl; congruence.
Qed.

Lemma geb_true_ltb (x y : float) :
  (x >=? y)%f64 = true -> (x <? y)%f64 = false.
Proof. unfold F64.geb. apply leb_true_gtb. Qed.

(** The integer constants of the source, as doubles. *)

Lemma of_Z_0 : F64.of_Z 0 = S754_zero false.
Proof. reflexivity. Qed.
Lemma of_Z_1 : F64.of_Z 1 = S754_finite false 4503599627370496 (-52).
Proof. vm_compute. reflexivity. Qed.
Lemma of_Z_50 : F64.of_Z 50 = S754_finite false 7036874417766400 (-47).
Proof. vm_compute. reflexivity. Qed.
Lemma of_Z_100 : F64.of_Z 100 = S754_finite false 7036874417766400 (-46).
Proof. vm_compute. reflexivity. Qed.
Lemma of_Z_1000 : F64.of_Z 1000 = S754_finite false 8796093022208000 (-43).
Proof. vm_compute. reflexivity. Qed.

(** The decimal literals are the correctly rounded quotients they name. *)
Lemma literals_denote :
  F64.lit_0_04 = (F64.of_Z 4 / F64.of_Z 100)%f64 /\
  F64.lit_0_25 = (F64.of_Z 1 / F64.of_Z 4)%f64 /\
  F64.lit_0_5 = (F64.of_Z 1 / F64.of_Z 2)%f64 /\
  lit_1234_5 = (F64.of_Z 2469 / F64.of_Z 2)%f64 /\
  float_num lit_1234_5 * 2 = 2469 * float_den lit_1234_5.
Proof. repeat split; vm_compute; reflexivity. Qed.

Ltac f64_consts :=
  rewrite ?of_Z_0, ?of_Z_1, ?of_Z_50, ?of_Z_100, ?of_Z_1000 in *.

(** Decides a comparison between a float and the constants above, from
    comparisons of the same kind in the context. *)
Ltac f64_order :=
  f64_consts;
  unfold F64.ltb, F64.leb, F64.gtb, F64.geb, F64.lit_0_25,
    SFltb, SFleb, SFcompare in *;
  repeat match goal with
         | s : bool |- _ => destruct s
         end;
  try discriminate; try reflexivity;
  repeat match goal with
         | H : context [Z.compare ?a ?b] |- _ =>
             destruct (Z.compare_spec a b); try discriminate
         | |- context [Z.compare ?a ?b] =>
             destruct (Z.compare_spec a b); try reflexivity
         end;
  try discriminate; try reflexivity; try lia.

(** The sign of a rounded result is the sign handed to the rounding. *)
Lemma binary_round_aux_sign (sx : bool) (mx ex : Z) (lx : location) :
  match binary_round_aux F64.prec F64.emax sx mx ex lx with
  | S754_zero s | S754_infinity s | S754_finite s _ _ => s = sx
  | S754_nan => True
  end.
Proof.
  unfold binary_round_aux.
  destruct (shr_fexp F64.prec F64.emax mx ex lx) as [mrs' e'].
  destruct (shr_fexp _ _ _ e' loc_Exact) as [mrs'' e''].
  destruct (shr_m mrs''); auto.
  destruct (e'' <=? F64.emax - F64.prec); reflexivity.
Qed.

Lemma div_100_sign (mx : positive) (ex : Z) :
  match (S754_finite false mx ex / F64.of_Z 100)%f64 with
  | S754_zero s | S754_infinity s | S754_finite s _ _ => s = false
  | S754_nan => True
  end.
Proof.
  rewrite of_Z_100. unfold F64.div, SFdiv.
  destruct (SFdiv_core_binary _ _ _ _ _ _) as [[mz ez] lz].
  apply (binary_round_aux_sign (xorb false false)).
Qed.

Lemma gtb_one_positive (raw : float) :
  (raw >? F64.of_Z 1)%f64 = true ->
  raw = S754_infinity false \/ exists m e, raw = S754_finite false m e.
Proof.
  rewrite of_Z_1. destruct raw as [s|s| |s m e]; try discriminate.
  - destruct s; [discriminate|]. now left.
  - destruct s; [discriminate|]. right. now exists m, e.
Qed.

Lemma nonneg_leb_quarter (r : float) :
  match r with
  | S754_zero s | S754_infinity s | S754_finite s _ _ => s = false
  | S754_nan => True
  end ->
  (r <=? F64.lit_0_25)%f64 = true ->
  (F64.of_Z 0 <=? r)%f64 = true /\ (r <=? F64.of_Z 1)%f64 = true.
Proof.
  rewrite of_Z_0, of_Z_1.
  destruct r as [s|s| |s m e]; try discriminate; intros ->; try discriminate;
    intros H; split; try reflexivity.
  revert H. unfold F64.leb, F64.lit_0_25, SFleb, SFcompare.
  destruct (Z.compare_spec e (-54)), (Z.compare_spec e (-52));
    try discriminate; try reflexivity; lia.
Qed.

(** ** Dividend yield *)

(** C5: the case analysis of [sanitize_dividend_yield]: an absent or negative
    input and an input above 50 give [None]; an input in (1, 50] is divided
    by 100 and kept when the quotient is at most 0.25; an input in [0, 1] is
    returned unchanged; with five examples. *)
Theorem sanitize_dividend_yield_cases :
  sanitize_dividend_yield None = None /\
  (forall raw, (raw <? F64.of_Z 0)%f64 = true ->
               sanitize_dividend_yield (Some raw) = None) /\
  (forall raw, (raw >? F64.of_Z 50)%f64 = true ->
               sanitize_dividend_yield (Some raw) = None) /\
  (forall raw, (raw >? F64.of_Z 1000)%f64 = true ->
               sanitize_dividend_yield (Some raw) = None) /\
  (forall raw, (raw >? F64.of_Z 1)%f64 = true ->
               (raw <=? F64.of_Z 50)%f64 = true ->
               sanitize_dividend_yield (Some raw) =
                 if (raw / F64.of_Z 100 <=? F64.lit_0_25)%f64
                 then Some (raw / F64.of_Z 100)%f64 else None) /\
  (forall raw, (F64.of_Z 0 <=? raw)%f64 = true ->
               (raw <=? F64.of_Z 1)%f64 = true ->
               sanitize_dividend_yield (Some raw) = Some raw) /\
  sanitize_dividend_yield (Some (F64.of_Z (-1))) = None /\
  sanitize_dividend_yield (Some F64.lit_0_04) = Some F64.lit_0_04 /\
  sanitize_dividend_yield (Some (F64.of_Z 4)) = Some F64.lit_0_04 /\
  sanitize_dividend_yield (Some (F64.of_Z 60)) = None /\
  sanitize_dividend_yield (Some (F64.of_Z 2000)) = None.
Proof.
  repeat split;
    try match goal with
        | |- forall _, _ => idtac
        | _ => vm_compute; reflexivity
        end.
  - intros raw H. unfold sanitize_dividend_yield. now rewrite H.
  - intros raw H. unfold sanitize_dividend_yield. rewrite H.
    destruct (raw <? _)%f64, (raw >? F64.of_Z 1000)%f64; reflexivity.
  - intros raw H. unfold sanitize_dividend_yield. rewrite H.
    destruct (raw <? _)%f64; reflexivity.
  - intros raw H1 H50. unfold sanitize_dividend_yield.
    assert (H0 : (raw <? F64.of_Z 0)%f64 = false)
      by (destruct raw as [s|s| |s m e]; f64_order).
    assert (H1000 : (raw >? F64.of_Z 1000)%f64 = false)
      by (destruct raw as [s|s| |s m e]; f64_order).
    rewrite H0, H1000, (leb_true_gtb _ _ H50), H1. reflexivity.
  - intros raw H0 H1. unfold sanitize_dividend_yield.
    assert (H1000 : (raw >? F64.of_Z 1000)%f64 = false)
      by (destruct raw as [s|s| |s m e]; f64_order).
    assert (H50 : (raw >? F64.of_Z 50)%f64 = false)
      by (destruct raw as [s|s| |s m e]; f64_order).
    rewrite (geb_true_ltb raw _ H0), H1000, H50, (leb_true_gtb _ _ H1).
    reflexivity.
Qed.

Lemma sanitize_dividend_yield_cases_witness :
  sanitize_dividend_yield (Some (S754_zero true)) = Some (S754_zero true) /\
  sanitize_dividend_yield (Some (F64.of_Z 25)) = Some F64.lit_0_25 /\
  sanitize_dividend_yield (Some (F64.of_Z 26)) = None.
Proof.
  destruct sanitize_dividend_yield_cases
    as (_ & _ & Hhigh & _ & Hpct & Hfrac & _).
  split; [|split].
  - apply Hfrac; reflexivity.
  - rewrite (Hpct (F64.of_Z 25)); reflexivity.
  - rewrite (Hpct (F64.of_Z 26)); reflexivity.
Defined.

(** C2 as stated fails: a raw value in (0.25, 1] is returned unchanged. *)
Lemma sanitize_dividend_yield_exceeds_quarter :
  ~ (forall raw r,
        sanitize_dividend_yield raw = Some r ->
        (F64.zero <=? r)%f64 = true /\ (r <=? F64.lit_0_25)%f64 = true).
Proof.
  intros H.
  destruct (H (Some F64.lit_0_5) F64.lit_0_5 eq_refl) as [_ Hle].
  discriminate Hle.
Qed.

(** C2, amended: for every raw value other than NaN the result is [None] or a
    value in [0, 1], and a value obtained from a raw input above 1 lies in
    [0, 0.25]. *)
Theorem sanitize_dividend_yield_range (raw r : float) :
  F64.is_nan raw = false ->
  sanitize_dividend_yield (Some raw) = Some r ->
  ((F64.zero <=? r)%f64 = true /\ (r <=? F64.one)%f64 = true) /\
  ((raw >? F64.one)%f64 = true -> (r <=? F64.lit_0_25)%f64 = true).
Proof.
  intros Hnan. unfold sanitize_dividend_yield, F64.zero, F64.one.
  destruct (raw <? F64.of_Z 0)%f64 eqn:H0; [discriminate|].
  destruct (raw >? F64.of_Z 1000)%f64; [discriminate|].
  destruct (raw >? F64.of_Z 50)%f64; [discriminate|].
  destruct (raw >? F64.of_Z 1)%f64 eqn:H1.
  - destruct (_ <=? F64.lit_0_25)%f64 eqn:Hq; [|discriminate].
    intros [= <-]. split; [|intros _; exact Hq].
    destruct (gtb_one_positive raw H1) as [-> | (m & e & ->)].
    + discriminate Hq.
    + apply nonneg_leb_quarter; [apply div_100_sign | exact Hq].
  - intros [= <-]. split; [split|intros H; congruence].
    + rewrite <- of_Z_0. apply (ltb_false_geb raw (F64.of_Z 0) Hnan eq_refl H0).
    + apply (ltb_false_geb (F64.of_Z 1) raw);
        [vm_compute; reflexivity | assumption | exact H1].
Qed.

Lemma sanitize_dividend_yield_range_witness :
  ((F64.zero <=? F64.lit_0_04)%f64 = true /\
   (F64.lit_0_04 <=? F64.one)%f64 = true) /\
  ((F64.of_Z 4 >? F64.one)%f64 = true ->
   (F64.lit_0_04 <=? F64.lit_0_25)%f64 = true).
Proof.
  apply (sanitize_dividend_yield_range (F64.of_Z 4) F64.lit_0_04);
    vm_compute; reflexivity.
Defined.

(** ** Price analysis *)

Lemma is_price_analysis_reliable_total (pa : option PriceAnalysis) :
  exists b, is_price_analysis_reliable pa = Ok b.
Proof.
  destruct pa as [[t v mn mx av td]|]; [|now exists false].
  unfold is_price_analysis_reliable, price_analysis_checks; cbn.
  destruct t as [|[t|]]; cbn; try (now exists false).
  destruct (F64.abs t >? _)%f64; cbn; try (now exists false).
  destruct v as [|[v|]]; cbn; try (now exists false).
  destruct (v <? _)%f64; cbn; try (now exists false).
  destruct (v >? _)%f64; cbn; try (now exists false).
  destruct mn as [|[mn|]]; cbn; try (now exists false).
  destruct mx as [|[mx|]]; cbn; try (now exists false).
  destruct (mn <=? _)%f64; cbn; try (now exists false).
  destruct (mx <=? _)%f64; cbn; try (now exists false).
  destruct (mn >=? mx)%f64; cbn; try (now exists false).
  destruct av as [|[av|]]; cbn; try (now exists false).
  destruct (av <=? _)%f64; cbn; eexists; reflexivity.
Qed.

(** The verdict on a record whose five numeric fields are all present. *)
Lemma is_price_analysis_reliable_present (t v mn mx av : float)
    (td : attr string) :
  is_price_analysis_reliable
    (Some {| total_return_percent := Attr (Some t);
             volatility := Attr (Some v);
             min_price := Attr (Some mn);
             max_price := Attr (Some mx);
             average_volume := Attr (Some av);
             trend_direction := td |}) =
  Ok (negb ((F64.abs t >? F64.of_Z 400)%f64
            || (v <? F64.of_Z 0)%f64 || (v >? F64.of_Z 200)%f64
            || (mn <=? F64.of_Z 0)%f64 || (mx <=? F64.of_Z 0)%f64
            || (mn >=? mx)%f64 || (av <=? F64.of_Z 0)%f64)).
Proof.
  unfold is_price_analysis_reliable, price_analysis_checks; cbn.
  destruct (F64.abs t >? _)%f64; cbn; try reflexivity.
  destruct (v <? _)%f64; cbn; try reflexivity.
  destruct (v >? _)%f64; cbn; try reflexivity.
  destruct (mn <=? _)%f64; cbn; try reflexivity.
  destruct (mx <=? _)%f64; cbn; try reflexivity.
  destruct (mn >=? mx)%f64; cbn; try reflexivity.
  destruct (av <=? _)%f64; reflexivity.
Qed.

(** A record with a missing or [None] numeric field is unreliable. *)
Lemma is_price_analysis_reliable_absent (pa : PriceAnalysis) :
  absent (total_return_percent pa) \/ absent (volatility pa) \/
  absent (min_price pa) \/ absent (max_price pa) \/
  absent (average_volume pa) ->
  is_price_analysis_reliable (Some pa) = Ok false.
Proof.
  destruct pa as [t v mn mx av td]; unfold absent; cbn. intros H.
  destruct (is_price_analysis_reliable_total
              (Some (Build_PriceAnalysis t v mn mx av td))) as [b Hb].
  destruct b; [|exact Hb]. exfalso. revert Hb.
  unfold is_price_analysis_reliable, price_analysis_checks; cbn.
  destruct t as [|[t|]]; cbn; try discriminate.
  destruct (F64.abs t >? _)%f64; cbn; try discriminate.
  destruct v as [|[v|]]; cbn; try discriminate.
  destruct (v <? _)%f64; cbn; try discriminate.
  destruct (v >? _)%f64; cbn; try discriminate.
  destruct mn as [|[mn|]]; cbn; try discriminate.
  destruct mx as [|[mx|]]; cbn; try discriminate.
  destruct (mn <=? _)%f64; cbn; try discriminate.
  destruct (mx <=? _)%f64; cbn; try discriminate.
  destruct (mn >=? mx)%f64; cbn; try discriminate.
  destruct av as [|[av|]]; cbn; try discriminate.
  intros _.
  repeat match goal with
         | H : _ \/ _ |- _ => destruct H
         end; discriminate.
Qed.

(** C6: [is_price_analysis_reliable] never raises; it answers [False] for an
    absent record, for a record with a required field missing or [None], and
    when the return exceeds 400 in magnitude, the volatility is below 0 or
    above 200, a price bound is not positive, the minimum is not below the
    maximum, or the volume is not positive; it answers [True] for the
    record [well_formed_record]. *)
Theorem is_price_analysis_reliable_verdict :
  is_price_analysis_reliable None = Ok false /\
  (forall pa, exists b, is_price_analysis_reliable pa = Ok b) /\
  (forall pa,
      absent (total_return_percent pa) \/ absent (volatility pa) \/
      absent (min_price pa) \/ absent (max_price pa) \/
      absent (average_volume pa) \/
      holds (total_return_percent pa)
        (fun x => (F64.abs x >? F64.of_Z 400)%f64) \/
      holds (volatility pa) (fun x => (x <? F64.of_Z 0)%f64) \/
      holds (volatility pa) (fun x => (x >? F64.of_Z 200)%f64) \/
      holds (min_price pa) (fun x => (x <=? F64.of_Z 0)%f64) \/
      holds (max_price pa) (fun x => (x <=? F64.of_Z 0)%f64) \/
      (exists x y, min_price pa = Attr (Some x) /\
                   max_price pa = Attr (Some y) /\ (x >=? y)%f64 = true) \/
      holds (average_volume pa) (fun x => (x <=? F64.of_Z 0)%f64) ->
      is_price_analysis_reliable (Some pa) = Ok false) /\
  is_price_analysis_reliable (Some well_formed_record) = Ok true.
Proof.
  split; [reflexivity|]. split; [exact is_price_analysis_reliable_total|].
  split; [|vm_compute; reflexivity].
  intros [t v mn mx av td] H. cbn in H.
  destruct t as [|[t|]];
    try (apply is_price_analysis_reliable_absent; unfold absent; cbn; tauto).
  destruct v as [|[v|]];
    try (apply is_price_analysis_reliable_absent; unfold absent; cbn; tauto).
  destruct mn as [|[mn|]];
    try (apply is_price_analysis_reliable_absent; unfold absent; cbn; tauto).
  destruct mx as [|[mx|]];
    try (apply is_price_analysis_reliable_absent; unfold absent; cbn; tauto).
  destruct av as [|[av|]];
    try (apply is_price_analysis_reliable_absent; unfold absent; cbn; tauto).
  rewrite is_price_analysis_reliable_present. f_equal.
  unfold absent, holds in H.
  repeat match goal with
         | H : _ \/ _ |- _ => destruct H as [H|H]
         | H : exists _, _ |- _ => destruct H as [? H]
         | H : _ /\ _ |- _ => destruct H as [? H]
         | H : Attr (Some _) = Attr (Some _) |- _ => injection H as <-
         end;
    try discriminate;
    rewrite H; rewrite ?orb_true_r; reflexivity.
Qed.

Lemma is_price_analysis_reliable_verdict_witness :
  is_price_analysis_reliable
    (Some {| total_return_percent := Attr (Some (F64.of_Z 15));
             volatility := Attr (Some (F64.of_Z 20));
             min_price := Attr (Some (F64.of_Z 200));
             max_price := Attr (Some (F64.of_Z 200));
             average_volume := NoAttr;
             trend_direction := NoAttr |}) = Ok false.
Proof.
  destruct is_price_analysis_reliable_verdict as (_ & _ & Hfalse & _).
  apply Hfalse. cbn.
  do 10 right. left. exists (F64.of_Z 200), (F64.of_Z 200).
  repeat split; reflexivity.
Defined.

(** ** Rendering *)

Lemma list_ascii_of_string_app (a b : string) :
  list_ascii_of_string (a ++ b) =
  list_ascii_of_string a ++ list_ascii_of_string b.
Proof. induction a as [|c a IH]; cbn; [reflexivity | now rewrite IH]. Qed.

(** Every decimal digit character satisfies a property that the ten of
    them satisfy. *)
Lemma digit_char_cases (P : ascii -> Prop) :
  P "0"%char -> P "1"%char -> P "2"%char -> P "3"%char -> P "4"%char ->
  P "5"%char -> P "6"%char -> P "7"%char -> P "8"%char -> P "9"%char ->
  forall n, P (digit_char (n mod 10)).
Proof.
  intros H0 H1 H2 H3 H4 H5 H6 H7 H8 H9 n.
  pose proof (Z.mod_pos_bound n 10 ltac:(lia)) as H.
  assert (E : n mod 10 = 0 \/ n mod 10 = 1 \/ n mod 10 = 2 \/ n mod 10 = 3 \/
              n mod 10 = 4 \/ n mod 10 = 5 \/ n mod 10 = 6 \/ n mod 10 = 7 \/
              n mod 10 = 8 \/ n mod 10 = 9) by lia.
  repeat destruct E as [E | E]; rewrite E; assumption.
Qed.

Lemma digit_char_code (n : Z) :
  Z.of_N (code (digit_char (n mod 10))) - 48 = n mod 10.
Proof.
  pose proof (Z.mod_pos_bound n 10 ltac:(lia)) as H.
  unfold code, digit_char. rewrite N_ascii_embedding by lia. lia.
Qed.

Lemma digits_fuel_Forall (P : ascii -> Prop) (fuel : nat) (n : Z)
    (acc : list ascii) :
  (forall k, P (digit_char (k mod 10))) ->
  Forall P acc -> Forall P (digits_fuel fuel n acc).
Proof.
  intros HP. revert n acc.
  induction fuel as [|fuel IH]; intros n acc Hacc; cbn; [exact Hacc|].
  assert (Forall P (digit_char (n mod 10) :: acc))
    by (constructor; [apply HP | exact Hacc]).
  destruct (n / 10 =? 0); [assumption | now apply IH].
Qed.

Lemma frac_digits_Forall (P : ascii -> Prop) (d : nat) (n : Z) :
  (forall k, P (digit_char (k mod 10))) -> Forall P (frac_digits d n).
Proof.
  intros HP. revert n. induction d as [|d IH]; intros n; cbn.
  - constructor.
  - apply Forall_app. split; [apply IH | repeat constructor; apply HP].
Qed.

(** A property of the ten digit characters holds of every character of
    [digits n]. *)
Lemma digits_Forall (P : ascii -> Prop) (n : Z) :
  P "0"%char -> P "1"%char -> P "2"%char -> P "3"%char -> P "4"%char ->
  P "5"%char -> P "6"%char -> P "7"%char -> P "8"%char -> P "9"%char ->
  Forall P (digits n).
Proof.
  intros. apply digits_fuel_Forall; [|constructor].
  now apply (digit_char_cases P).
Qed.

Lemma frac_digits_length (d : nat) (n : Z) :
  List.length (frac_digits d n) = d.
Proof.
  revert n. induction d as [|d IH]; intros n; cbn; [reflexivity|].
  rewrite length_app, IH. cbn. lia.
Qed.

(** *** The number a digit sequence denotes *)

Lemma digits_value_from (l : list ascii) (a : Z) :
  fold_left (fun acc c => 10 * acc + (Z.of_N (code c) - 48)) l a =
  a * 10 ^ Z.of_nat (List.length l) + digits_value l.
Proof.
  unfold digits_value. revert a.
  induction l as [|c l IH]; intros a; cbn [fold_left List.length].
  - cbn. lia.
  - rewrite IH, (IH (10 * 0 + _)).
    rewrite Nat2Z.inj_succ, Z.pow_succ_r by lia. lia.
Qed.

Lemma digits_value_app (l r : list ascii) :
  digits_value (l ++ r) =
  digits_value l * 10 ^ Z.of_nat (List.length r) + digits_value r.
Proof.
  unfold digits_value at 1. rewrite fold_left_app.
  fold (digits_value l). apply digits_value_from.
Qed.

Lemma digits_value_cons (c : ascii) (l : list ascii) :
  digits_value (c :: l) =
  (Z.of_N (code c) - 48) * 10 ^ Z.of_nat (List.length l) + digits_value l.
Proof.
  change (c :: l) with ([c] ++ l). rewrite digits_value_app.
  unfold digits_value at 1. cbn. lia.
Qed.

(** The fuel of [digits] is enough: the digits denote the number. *)
Lemma digits_fuel_value (fuel : nat) (n : Z) (acc : list ascii) :
  0 <= n < 2 ^ Z.of_nat fuel ->
  digits_value (digits_fuel fuel n acc) =
  n * 10 ^ Z.of_nat (List.length acc) + digits_value acc.
Proof.
  revert n acc. induction fuel as [|fuel IH]; intros n acc Hn.
  - change (2 ^ Z.of_nat 0) with 1 in Hn. assert (n = 0) by lia. subst n.
    cbn [digits_fuel]. lia.
  - cbn [digits_fuel].
    pose proof (Z.div_mod n 10 ltac:(lia)) as Hdm.
    pose proof (Z.mod_pos_bound n 10 ltac:(lia)) as Hmod.
    assert (Hstep : digits_value (digit_char (n mod 10) :: acc) =
                    n mod 10 * 10 ^ Z.of_nat (List.length acc)
                    + digits_value acc)
      by (rewrite digits_value_cons, digit_char_code; reflexivity).
    destruct (Z.eqb_spec (n / 10) 0) as [E | E].
    + rewrite Hstep. replace (n mod 10) with n by lia. reflexivity.
    + rewrite IH.
      * rewrite Hstep. cbn [List.length].
        rewrite Nat2Z.inj_succ, Z.pow_succ_r by lia. lia.
      * rewrite Nat2Z.inj_succ, Z.pow_succ_r in Hn by lia.
        split; [apply Z.div_pos; lia|].
        apply Z.div_lt_upper_bound; lia.
Qed.

Lemma digits_value_digits (n : Z) : 0 <= n -> digits_value (digits n) = n.
Proof.
  intros Hn. unfold digits. rewrite digits_fuel_value; [cbn; lia|].
  split; [exact Hn|].
  rewrite Nat2Z.inj_succ, Z2Nat.id by apply Z.log2_nonneg.
  destruct (Z.eq_dec n 0) as [-> | Hnz]; [reflexivity|].
  apply Z.log2_spec. lia.
Qed.

Lemma frac_digits_value (d : nat) (n : Z) :
  digits_value (frac_digits d n) = n mod 10 ^ Z.of_nat d.
Proof.
  revert n. induction d as [|d IH]; intros n.
  - cbn. now rewrite Z.mod_1_r.
  - cbn [frac_digits]. rewrite digits_value_app, IH.
    change (Z.of_nat (List.length [digit_char (n mod 10)])) with 1.
    unfold digits_value. cbn [fold_left]. rewrite digit_char_code.
    rewrite (Nat2Z.inj_succ d), Z.pow_succ_r by lia.
    rewrite (Z.rem_mul_r n 10 (10 ^ Z.of_nat d)) by lia. lia.
Qed.

(** *** Thousands separators *)

Lemma list_ind3 {A : Type} (P : list A -> Prop) :
  P [] -> (forall a, P [a]) -> (forall a b, P [a; b]) ->
  (forall a b c, P [a; b; c]) ->
  (forall a b c d rest, P (d :: rest) -> P (a :: b :: c :: d :: rest)) ->
  forall l, P l.
Proof.
  intros H0 H1 H2 H3 Hstep l.
  assert (H : forall n l, (List.length l <= n)%nat -> P l).
  { induction n as [|n IH]; intros [|a [|b [|c [|d rest]]]] Hlen;
      cbn in Hlen; auto; try lia.
    apply Hstep. apply IH. cbn. lia. }
  apply (H (List.length l)). lia.
Qed.

Lemma group3_rev_ungroup (l : list ascii) :
  Forall (fun c => not_comma c = true) l ->
  filter not_comma (group3_rev l) = l.
Proof.
  induction l as [| a | a b | a b c | a b c d rest IH] using list_ind3;
    intros H.
  1-4: apply forallb_filter_id; apply forallb_forall;
       rewrite Forall_forall in H; exact H.
  change (group3_rev (a :: b :: c :: d :: rest))
    with (a :: b :: c :: ","%char :: group3_rev (d :: rest)).
  inversion H as [|? ? Ha H1]; subst.
  inversion H1 as [|? ? Hb H2]; subst.
  inversion H2 as [|? ? Hc H3]; subst.
  cbn [filter]. rewrite Ha, Hb, Hc.
  change (not_comma ","%char) with false. cbv iota.
  now rewrite (IH H3).
Qed.

Lemma group3_rev_Forall (P : ascii -> Prop) (l : list ascii) :
  P ","%char -> Forall P l -> Forall P (group3_rev l).
Proof.
  intros Hcomma.
  induction l as [| a | a b | a b c | a b c d rest IH] using list_ind3;
    intros H; try exact H.
  change (group3_rev (a :: b :: c :: d :: rest))
    with (a :: b :: c :: ","%char :: group3_rev (d :: rest)).
  inversion H as [|? ? Ha H1]; subst.
  inversion H1 as [|? ? Hb H2]; subst.
  inversion H2 as [|? ? Hc H3]; subst.
  do 4 (constructor; [assumption|]). now apply IH.
Qed.

Lemma group_thousands_ungroup (ds : list ascii) :
  Forall (fun c => not_comma c = true) ds ->
  filter not_comma (group_thousands ds) = ds.
Proof.
  intros H. unfold group_thousands.
  rewrite filter_rev, group3_rev_ungroup by now apply Forall_rev.
  apply rev_involutive.
Qed.

Lemma group_thousands_Forall (P : ascii -> Prop) (ds : list ascii) :
  P ","%char -> Forall P ds -> Forall P (group_thousands ds).
Proof.
  intros Hc H. unfold group_thousands.
  apply Forall_rev, group3_rev_Forall; [exact Hc | now apply Forall_rev].
Qed.

(** The text of [format_int_comma] reads back as the integer. *)
Lemma format_int_comma_read_back (n : Z) : int_of_text (format_int_comma n) = n.
Proof.
  unfold int_of_text, format_int_comma.
  rewrite list_ascii_of_string_app, list_ascii_of_string_of_list_ascii.
  rewrite filter_app, group_thousands_ungroup
    by (apply (digits_Forall (fun c => not_comma c = true)); reflexivity).
  pose proof (digits_value_digits (Z.abs n) (Z.abs_nonneg n)) as Hv.
  destruct (Z.ltb_spec n 0) as [Hneg | Hpos].
  - change (filter not_comma (list_ascii_of_string "-"))
      with ["-"%char].
    cbn [app]. change (Ascii.eqb "-" "-") with true. cbv iota.
    rewrite Hv. lia.
  - change (filter not_comma (list_ascii_of_string "")) with (@nil ascii).
    cbn [app].
    assert (Hd : Forall (fun c => Ascii.eqb c "-" = false) (digits (Z.abs n)))
      by (apply (digits_Forall (fun c => Ascii.eqb c "-" = false));
          reflexivity).
    destruct (digits (Z.abs n)) as [|c ds]; [cbn in Hv; lia|].
    inversion Hd as [|? ? Hc _]; subst. rewrite Hc, Hv. lia.
Qed.

(** The text of [format_int_comma] has no decimal point. *)
Lemma format_int_comma_no_point (n : Z) :
  decimals_shown (list_ascii_of_string (format_int_comma n)) = 0%nat.
Proof.
  assert (H : Forall (fun c => Ascii.eqb c "." = false)
                (list_ascii_of_string (format_int_comma n))).
  { unfold format_int_comma.
    rewrite list_ascii_of_string_app, list_ascii_of_string_of_list_ascii.
    apply Forall_app. split.
    - destruct (n <? 0); repeat constructor.
    - apply group_thousands_Forall; [reflexivity|].
      apply (digits_Forall (fun c => Ascii.eqb c "." = false));
        reflexivity. }
  induction H as [|c l Hc _ IH]; cbn; [reflexivity | now rewrite Hc].
Qed.

(** *** Rounding to the nearest integer *)

Lemma div_round_half_even_nearest (p q : Z) :
  0 < q -> nearest_ties_even p q (div_round_half_even p q).
Proof.
  intros Hq. unfold nearest_ties_even, div_round_half_even.
  pose proof (Z.div_mod p q ltac:(lia)) as Hdiv.
  pose proof (Z.mod_pos_bound p q Hq) as Hmod.
  set (n := p / q) in *. set (r := p mod q) in *.
  assert (Hn : n * q = p - r) by lia.
  destruct (Z.compare_spec (2 * r) q) as [E | E | E].
  - destruct (Z.even n) eqn:Hev.
    + split; [lia | intros _; exact Hev].
    + replace ((n + 1) * q) with (p - r + q) by lia.
      split; [lia | intros _].
      rewrite Z.add_1_r, Z.even_succ, <- Z.negb_even, Hev. reflexivity.
  - split; lia.
  - replace ((n + 1) * q) with (p - r + q) by lia. split; lia.
Qed.

Lemma div_round_half_even_nonneg (p q : Z) :
  0 <= p -> 0 < q -> 0 <= div_round_half_even p q.
Proof.
  intros Hp Hq. unfold div_round_half_even.
  pose proof (Z.div_pos p q Hp Hq).
  destruct (2 * (p mod q) ?= q); [destruct (Z.even _)| |]; lia.
Qed.

Lemma nearest_ties_even_opp (num den n : Z) :
  nearest_ties_even num den n -> nearest_ties_even (- num) den (- n).
Proof.
  unfold nearest_ties_even.
  replace (- n * den - - num) with (- (n * den - num)) by lia.
  rewrite Z.abs_opp, Z.even_opp. trivial.
Qed.

(** *** Fixed-point notation *)

Lemma filter_is_digit_id (l : list ascii) :
  Forall (fun c => is_digit c = true) l -> filter is_digit l = l.
Proof.
  intros H. apply forallb_filter_id, forallb_forall.
  rewrite Forall_forall in H. exact H.
Qed.

(** The digits of [render_fixed] denote the integer it was given. *)
Lemma render_fixed_digits (s : bool) (n : Z) (d : nat) :
  0 <= n ->
  digits_value (digits_of_text (render_fixed s n d false)) = n.
Proof.
  intros Hn. unfold digits_of_text, render_fixed.
  assert (Hp : 0 < 10 ^ Z.of_nat d) by (apply Z.pow_pos_nonneg; lia).
  rewrite !list_ascii_of_string_app, list_ascii_of_string_of_list_ascii.
  rewrite !filter_app.
  replace (filter is_digit (list_ascii_of_string (if s then "-" else "")))
    with (@nil ascii) by (destruct s; reflexivity).
  rewrite (filter_is_digit_id (digits _))
    by (apply (digits_Forall (fun c => is_digit c = true)); reflexivity).
  cbn [app].
  pose proof (digits_value_digits (n / 10 ^ Z.of_nat d)
                (Z.div_pos _ _ Hn Hp)) as Hq.
  destruct d as [|d'].
  - cbn [list_ascii_of_string filter]. rewrite app_nil_r, Hq.
    change (10 ^ Z.of_nat 0) with 1. apply Z.div_1_r.
  - change (list_ascii_of_string ("." ++ ?x))
      with ("."%char :: list_ascii_of_string x).
    cbn [list_ascii_of_string append filter].
    change (is_digit ".") with false. cbv iota.
    rewrite list_ascii_of_string_of_list_ascii.
    rewrite filter_is_digit_id
      by (apply (frac_digits_Forall (fun c => is_digit c = true));
          apply (digit_char_cases (fun c => is_digit c = true));
          reflexivity).
    rewrite digits_value_app, Hq, frac_digits_length, frac_digits_value.
    rewrite Z.mod_mod by lia.
    pose proof (Z.div_mod n (10 ^ Z.of_nat (S d')) ltac:(lia)). lia.
Qed.

Lemma scaled_magnitude_nonneg (m : positive) (e : Z) (d : nat) :
  0 <= scaled_magnitude m e d.
Proof.
  unfold scaled_magnitude.
  assert (0 < 10 ^ Z.of_nat d) by (apply Z.pow_pos_nonneg; lia).
  destruct (0 <=? e) eqn:He.
  - assert (0 < 2 ^ e) by (apply Z.pow_pos_nonneg; lia). nia.
  - apply div_round_half_even_nonneg; [nia|].
    apply Z.pow_pos_nonneg; lia.
Qed.

(** The digits of a finite double in fixed-point notation with [d]
    decimals denote the integer nearest to its magnitude times [10 ^ d], the
    even one on a tie. *)
Lemma fixed_point_digits (f : float) (d : nat) :
  F64.is_finite f = true ->
  nearest_ties_even (Z.abs (float_num f) * 10 ^ Z.of_nat d) (float_den f)
    (digits_value (digits_of_text (fixed_point f d false))).
Proof.
  assert (Hp : 0 < 10 ^ Z.of_nat d) by (apply Z.pow_pos_nonneg; lia).
  destruct f as [s|s| |s m e]; try discriminate; intros _;
    unfold fixed_point.
  - rewrite render_fixed_digits by lia.
    unfold nearest_ties_even; cbn. lia.
  - rewrite render_fixed_digits by apply scaled_magnitude_nonneg.
    unfold scaled_magnitude, float_num, float_den.
    destruct (0 <=? e) eqn:He.
    + assert (0 < 2 ^ e) by (apply Z.pow_pos_nonneg; lia).
      replace (Z.abs (if s then - (Z.pos m * 2 ^ e) else Z.pos m * 2 ^ e))
        with (Z.pos m * 2 ^ e) by (destruct s; nia).
      unfold nearest_ties_even. split; lia.
    + replace (Z.abs (if s then - Z.pos m else Z.pos m)) with (Z.pos m)
        by (destruct s; lia).
      apply div_round_half_even_nearest. apply Z.pow_pos_nonneg; lia.
Qed.

(** ** Formatters *)

Section Formatters.
Context `{L : PyLib}.

Lemma format_percent_not_coercible raw decimals assume_fractional :
  not_coercible raw ->
  format_percent raw decimals assume_fractional = Ok NA.
Proof.
  unfold not_coercible, format_percent.
  intros [-> | [E | E]]; [reflexivity | |]; rewrite E; now destruct raw.
Qed.

Lemma format_currency_not_coercible raw :
  not_coercible raw -> format_currency raw = Ok NA.
Proof.
  unfold not_coercible, format_currency.
  intros [-> | [E | E]]; [reflexivity | |]; rewrite E; now destruct raw.
Qed.

Lemma format_integer_not_coercible raw :
  not_coercible raw -> format_integer raw = Ok NA.
Proof.
  unfold not_coercible, format_integer.
  intros [-> | [E | E]]; [reflexivity | |]; rewrite E; now destruct raw.
Qed.

Lemma format_ratio_None decimals : format_ratio VNone decimals = Ok NA.
Proof. reflexivity. Qed.

(** C1 fails on [format_ratio], which formats its argument without the
    coercion guard of the other three formatters: a string raises
    [ValueError] and an object such as a list raises [TypeError], while both
    are inputs that [float] rejects. *)
Theorem format_ratio_raises_on_non_numeric :
  (forall s decimals, format_ratio (VStr s) decimals = Raise ValueError) /\
  (forall decimals, format_ratio VOther decimals = Raise TypeError) /\
  not_coercible VOther /\
  format_percent VOther 2 false = Ok NA /\
  format_currency VOther = Ok NA /\
  format_integer VOther = Ok NA.
Proof.
  repeat split. right; left; reflexivity.
Qed.

(** *** Rounding *)

(** [round] of a finite double is an integer nearest to its exact value,
    the even one on a tie. *)
Lemma py_round_nearest (f : float) :
  F64.is_finite f = true ->
  exists n, py_round f = Ok n /\
            nearest_ties_even (float_num f) (float_den f) n.
Proof.
  destruct f as [s|s| |s m e]; try discriminate; intros _.
  - exists 0. split; [reflexivity|]. unfold nearest_ties_even; cbn. lia.
  - unfold py_round, float_num, float_den.
    eexists. split; [reflexivity|].
    destruct (0 <=? e) eqn:He.
    + assert (H0 : nearest_ties_even (Z.pos m * 2 ^ e) 1 (Z.pos m * 2 ^ e))
        by (unfold nearest_ties_even; split; lia).
      destruct s; [apply nearest_ties_even_opp|]; exact H0.
    + assert (Hq : 0 < 2 ^ (- e)) by (apply Z.pow_pos_nonneg; lia).
      pose proof (div_round_half_even_nearest (Z.pos m) _ Hq) as H0.
      destruct s; [apply nearest_ties_even_opp|]; exact H0.
Qed.

(** C3, amended: [format_integer] of 1234.5 is "1,234"; for every input that
    [float] turns into a finite double, the result is the integer nearest to
    that double, ties going to the even integer, written with thousands
    separators and no decimals: the text reads back as that integer and has
    no decimal point. *)
Theorem format_integer_rounds_ties_to_even :
  format_integer (VFloat lit_1234_5) = Ok "1,234"%string /\
  format_integer (VInt (-1234567)) = Ok "-1,234,567"%string /\
  forall raw f,
    py_float raw = Ok f -> F64.is_finite f = true ->
    exists n text,
      format_integer raw = Ok text /\
      text = format_int_comma n /\
      nearest_ties_even (float_num f) (float_den f) n /\
      int_of_text text = n /\
      decimals_shown (list_ascii_of_string text) = 0%nat.
Proof.
  split; [vm_compute; reflexivity|]. split; [vm_compute; reflexivity|].
  intros raw f Hf Hfin.
  destruct (py_round_nearest f Hfin) as (n & Hn & Hnear).
  exists n, (format_int_comma n).
  split; [|split; [reflexivity|split; [exact Hnear|split]]].
  - unfold format_integer. rewrite Hf. cbn. rewrite Hn. cbn.
    destruct raw; try reflexivity. discriminate Hf.
  - apply format_int_comma_read_back.
  - apply format_int_comma_no_point.
Qed.

(** *** Fixed-point notation *)

Lemma decimals_shown_no_dot (l : list ascii) :
  Forall (fun c => Ascii.eqb c "." = false) l -> decimals_shown l = 0%nat.
Proof.
  induction 1 as [|c l Hc _ IH]; cbn; [reflexivity | now rewrite Hc].
Qed.

Lemma decimals_shown_app (l r : list ascii) :
  Forall (fun c => Ascii.eqb c "." = false) l ->
  decimals_shown (l ++ "."%char :: r) = List.length r.
Proof.
  induction 1 as [|c l Hc _ IH]; cbn; [reflexivity | now rewrite Hc].
Qed.

(** A finite double in fixed-point notation shows exactly [d] decimals. *)
Lemma fixed_point_decimals (f : float) (d : nat) :
  F64.is_finite f = true ->
  decimals_shown (list_ascii_of_string (fixed_point f d false)) = d.
Proof.
  assert (Hr : forall s n,
             decimals_shown (list_ascii_of_string (render_fixed s n d false))
             = d).
  { intros s n. unfold render_fixed.
    rewrite !list_ascii_of_string_app, list_ascii_of_string_of_list_ascii.
    rewrite app_assoc.
    assert (Hpre : Forall (fun c => Ascii.eqb c "." = false)
                     (list_ascii_of_string (if s then "-" else "")
                      ++ digits (n / 10 ^ Z.of_nat d))).
    { apply Forall_app. split.
      - destruct s; cbn; repeat constructor.
      - apply (digits_Forall (fun c => Ascii.eqb c "." = false));
          reflexivity. }
    destruct d as [|d'].
    - cbn [list_ascii_of_string]. rewrite app_nil_r.
      now apply decimals_shown_no_dot.
    - cbn [list_ascii_of_string append].
      rewrite list_ascii_of_string_of_list_ascii.
      rewrite decimals_shown_app by exact Hpre.
      apply frac_digits_length. }
  destruct f as [s|s| |s m e]; try discriminate; intros _; apply Hr.
Qed.

(** C8: for every input that [float] accepts, [format_percent] multiplies
    the value by 100 when [assume_fractional] is set or the magnitude is at
    most 1, and leaves it unscaled otherwise; the text is the value in
    fixed-point notation with the requested decimals, followed by a percent
    sign; for a finite value that notation shows exactly [decimals] digits
    after the point, and its digits are those of the value times
    [10 ^ decimals] rounded to the nearest integer; 0.5 and 50 both give
    "50.00%". *)
Theorem format_percent_scaling :
  (forall raw f decimals assume_fractional,
      py_float raw = Ok f -> 0 <= decimals <= INT_MAX ->
      (assume_fractional = true \/ (F64.abs f <=? F64.of_Z 1)%f64 = true ->
       format_percent raw decimals assume_fractional =
         Ok (fixed_point (f * F64.of_Z 100)%f64 (Z.to_nat decimals) false
             ++ "%")%string) /\
      (assume_fractional = false -> (F64.abs f <=? F64.of_Z 1)%f64 = false ->
       format_percent raw decimals assume_fractional =
         Ok (fixed_point f (Z.to_nat decimals) false ++ "%")%string)) /\
  (forall f decimals,
      F64.is_finite f = true -> 0 <= decimals ->
      decimals_shown
        (list_ascii_of_string (fixed_point f (Z.to_nat decimals) false))
      = Z.to_nat decimals /\
      nearest_ties_even (Z.abs (float_num f) * 10 ^ decimals) (float_den f)
        (digits_value
           (digits_of_text (fixed_point f (Z.to_nat decimals) false)))) /\
  format_percent (VFloat F64.lit_0_5) 2 false = Ok "50.00%"%string /\
  format_percent (VFloat lit_50) 2 false = Ok "50.00%"%string /\
  format_percent (VInt 50) 2 false = Ok "50.00%"%string.
Proof.
  split; [|split; [|repeat split; vm_compute; reflexivity]].
  - intros raw f decimals af Hf Hd.
    assert (Hfmt : forall x,
               format_float_f x decimals false
               = Ok (fixed_point x (Z.to_nat decimals) false)).
    { intros x. unfold format_float_f, precision_parses.
      replace (0 <=? decimals) with true by lia.
      replace (decimals <=? PY_SSIZE_T_MAX) with true
        by (unfold PY_SSIZE_T_MAX, INT_MAX in *; lia).
      replace (INT_MAX <? decimals) with false by lia. reflexivity. }
    assert (Hraw : format_percent raw decimals af =
                   (s <- format_float_f
                           (if af || (F64.abs f <=? F64.of_Z 1)%f64
                            then (f * F64.of_Z 100)%f64 else f)
                           decimals false ;;
                    Ok (s ++ "%")%string)).
    { unfold format_percent. rewrite Hf.
      destruct raw; try reflexivity. discriminate Hf. }
    rewrite Hraw, Hfmt. cbn. split.
    + intros [-> | ->]; [reflexivity | now rewrite orb_true_r].
    + intros -> ->. reflexivity.
  - intros f decimals Hfin Hd. split; [now apply fixed_point_decimals|].
    rewrite <- (Z2Nat.id decimals Hd) at 1. now apply fixed_point_digits.
Qed.


End Formatters.

(** C3 as stated fails: 1234.5 is a tie and [round] resolves it to the even
    neighbour, so the text is "1,234". *)
Lemma format_integer_tie_not_away_from_zero :
  format_integer (L := plain_lib) (VFloat lit_1234_5) <> Ok "1,235"%string /\
  ~ (forall n,
        format_integer (L := plain_lib) (VFloat lit_1234_5)
        = Ok (format_int_comma n) ->
               nearest_ties_away (float_num lit_1234_5)
                 (float_den lit_1234_5) n).
Proof.
  split; [vm_compute; discriminate|].
  intros H. specialize (H 1234 eq_refl). destruct H as [_ H].
  vm_compute in H. specialize (H eq_refl). discriminate H.
Qed.

Lemma format_integer_rounds_ties_to_even_witness :
  exists n text,
    format_integer (L := plain_lib) (VInt 7) = Ok text /\
    text = format_int_comma n /\
    nearest_ties_even (float_num (F64.of_Z 7)) (float_den (F64.of_Z 7)) n /\
    int_of_text text = n /\
    decimals_shown (list_ascii_of_string text) = 0%nat.
Proof.
  destruct (format_integer_rounds_ties_to_even (L := plain_lib))
    as (_ & _ & H).
  apply (H (VInt 7) (F64.of_Z 7)); reflexivity.
Defined.

(** ** Filters *)

Lemma filter_filter {A : Type} (p : A -> bool) (l : list A) :
  filter p (filter p l) = filter p l.
Proof.
  induction l as [|x l IH]; cbn; [reflexivity|].
  destruct (p x) eqn:E; cbn; [rewrite E, IH|]; auto.
Qed.

Section WindowLoop.
Context {A : Type} (date_of : A -> option date) (as_of : date)
  (max_age_days : Z).

Lemma window_loop_in_range (xs recent : list A) :
  Z.abs max_age_days <= 999999999 ->
  window_loop date_of as_of max_age_days xs recent =
  Ok (recent ++ filter (within_window date_of as_of max_age_days) xs).
Proof.
  intros Hmax. revert recent.
  induction xs as [|x xs IH]; intros recent; cbn.
  - now rewrite app_nil_r.
  - unfold within_window at 1, timedelta_days.
    destruct (date_of x) as [d|]; [|apply IH].
    destruct (Z.leb_spec (Z.abs max_age_days) 999999999); [|lia]. cbn.
    destruct (Z.gtb_spec (date_sub as_of d) max_age_days),
             (Z.leb_spec (date_sub as_of d) max_age_days); try lia.
    + apply IH.
    + rewrite IH, <- app_assoc. reflexivity.
Qed.

Lemma window_loop_out_of_range (xs recent kept : list A) :
  ~ Z.abs max_age_days <= 999999999 ->
  window_loop date_of as_of max_age_days xs recent = Ok kept ->
  kept = recent.
Proof.
  intros Hmax. revert recent.
  induction xs as [|x xs IH]; intros recent; cbn.
  - now intros [= <-].
  - unfold timedelta_days. destruct (date_of x) as [d|]; [|apply IH].
    destruct (Z.leb_spec (Z.abs max_age_days) 999999999); [lia|]. discriminate.
Qed.

Lemma window_loop_idempotent (xs kept : list A) :
  window_loop date_of as_of max_age_days xs [] = Ok kept ->
  window_loop date_of as_of max_age_days kept [] = Ok kept.
Proof.
  intros H.
  destruct (Z_le_dec (Z.abs max_age_days) 999999999) as [Hmax | Hmax].
  - rewrite window_loop_in_range in H by exact Hmax.
    injection H as <-. cbn.
    rewrite window_loop_in_range by exact Hmax. cbn.
    now rewrite filter_filter.
  - apply window_loop_out_of_range in H; [|exact Hmax]. now subst.
Qed.

Lemma window_loop_result (xs recent kept : list A) :
  window_loop date_of as_of max_age_days xs recent = Ok kept ->
  kept = recent ++ filter (within_window date_of as_of max_age_days) xs.
Proof.
  revert recent. induction xs as [|x xs IH]; intros recent; cbn.
  - intros [= <-]. now rewrite app_nil_r.
  - unfold within_window at 1, timedelta_days.
    destruct (date_of x) as [d|]; [|apply IH].
    destruct (Z.abs max_age_days <=? 999999999); [|discriminate]. cbn.
    destruct (Z.gtb_spec (date_sub as_of d) max_age_days),
             (Z.leb_spec (date_sub as_of d) max_age_days); try lia.
    + apply IH.
    + intros Hk. apply IH in Hk. now rewrite <- app_assoc in Hk.
Qed.


End WindowLoop.

Section Filters.
Context `{L : PyLib}.

Lemma recent_articles_loop_shape as_of max_age_days (xs recent : list Article) :
  recent_articles_loop as_of max_age_days xs recent =
  window_loop article_date as_of max_age_days xs recent.
Proof.
  revert recent. induction xs as [|x xs IH]; intros recent; cbn;
    [reflexivity|].
  unfold article_date at 1.
  destruct (_parse_date _); [|apply IH].
  destruct (timedelta_days max_age_days); cbn; [|reflexivity].
  destruct (_ >? _); apply IH.
Qed.

Lemma recent_transactions_loop_shape as_of max_age_days
    (xs recent : list InsiderTransaction) :
  recent_transactions_loop as_of max_age_days xs recent =
  window_loop transaction_date_of as_of max_age_days xs recent.
Proof.
  revert recent. induction xs as [|x xs IH]; intros recent; cbn;
    [reflexivity|].
  unfold transaction_date_of at 1.
  destruct (_parse _); [|apply IH].
  destruct (timedelta_days max_age_days); cbn; [|reflexivity].
  destruct (_ >? _); apply IH.
Qed.

(** *** Placeholder names *)

Lemma valid_transactions_loop_result (xs valid kept : list InsiderTransaction) :
  valid_transactions_loop xs valid = Ok kept ->
  kept = valid ++ filter transaction_is_valid xs.
Proof.
  revert valid. induction xs as [|t xs IH]; intros valid; cbn.
  - intros [= <-]. now rewrite app_nil_r.
  - unfold transaction_is_valid at 1.
    destruct (getattr (name t) ""%string) as [s|]; [|discriminate].
    destruct (_ || _); cbn; intros H; apply IH in H; [exact H|].
    now rewrite <- app_assoc in H.
Qed.

Lemma valid_transactions_loop_kept (ys valid : list InsiderTransaction) :
  Forall (fun t => transaction_is_valid t = true) ys ->
  valid_transactions_loop ys valid = Ok (valid ++ ys).
Proof.
  intros H. revert valid.
  induction H as [|t ys Ht _ IH]; intros valid; cbn.
  - now rewrite app_nil_r.
  - unfold transaction_is_valid in Ht.
    destruct (getattr (name t) ""%string) as [s|]; [|discriminate].
    destruct (_ || _); [discriminate|].
    rewrite IH, <- app_assoc. reflexivity.
Qed.

Lemma valid_transactions_loop_no_null (xs valid : list InsiderTransaction) :
  Forall (fun t => name t <> Attr None) xs ->
  valid_transactions_loop xs valid =
  Ok (valid ++ filter transaction_is_valid xs).
Proof.
  intros H. revert valid.
  induction H as [|t xs Ht _ IH]; intros valid; cbn.
  - now rewrite app_nil_r.
  - unfold transaction_is_valid at 1.
    destruct (name t) as [|[s|]]; cbn; try congruence.
    destruct (_ || _); cbn; rewrite IH; [|rewrite <- app_assoc];
      reflexivity.
Qed.

Lemma valid_transactions_loop_null (t : InsiderTransaction)
    (xs valid : list InsiderTransaction) :
  In t xs -> name t = Attr None ->
  valid_transactions_loop xs valid = Raise AttributeError.
Proof.
  intros Hin Hnull. revert valid.
  induction xs as [|x xs IH]; intros valid; [destruct Hin|].
  cbn. destruct Hin as [-> | Hin].
  - rewrite Hnull. reflexivity.
  - destruct (getattr (name x) ""%string); [|reflexivity].
    destruct (_ || _); now apply IH.
Qed.

Lemma filter_valid_transactions_idempotent txns kept :
  filter_valid_transactions txns = Ok kept ->
  filter_valid_transactions (Some kept) = Ok kept.
Proof.
  unfold filter_valid_transactions. intros H.
  apply valid_transactions_loop_result in H. cbn in H. subst kept. cbn.
  apply (valid_transactions_loop_kept _ []).
  apply Forall_forall. intros t Ht. now apply filter_In in Ht.
Qed.

(** *** Recency windows *)

(** C7: for a window length a [timedelta] can hold, [filter_recent_articles]
    returns, in input order, exactly the articles whose [published_date]
    parses to a date [p] with [as_of - p <= max_age_days]; a date that is
    missing, [None] or empty does not parse, and an article whose date does
    not parse is dropped.  As of
    2024-06-01 with 120 days, articles dated 2024-05-01 and 2024-02-02 (120
    days back) are kept, articles dated 2023-01-01 and 2024-02-01 are
    dropped. *)
Theorem filter_recent_articles_window :
  (forall articles as_of max_age_days,
      Z.abs max_age_days <= 999999999 ->
      exists kept,
        filter_recent_articles (Some articles) as_of max_age_days = Ok kept /\
        kept = filter (article_is_recent as_of max_age_days) articles /\
        forall a, In a kept <->
                  In a articles /\
                  exists p, _parse_date (getattr (published_date a) ""%string)
                            = Some p /\
                            date_sub as_of p <= max_age_days) /\
  (forall a,
      absent (published_date a) \/ published_date a = Attr (Some ""%string) ->
      _parse_date (getattr (published_date a) ""%string) = None) /\
  filter_recent_articles
    (Some [article_dated (Attr (Some "2024-05-01"%string));
           article_dated (Attr (Some "2023-01-01"%string));
           article_dated (Attr None);
           article_dated NoAttr;
           article_dated (Attr (Some ""%string));
           article_dated (Attr (Some " 2024-02-02T08:30:00Z "%string));
           article_dated (Attr (Some "2024-02-01"%string))])
    june_1_2024 120
  = Ok [article_dated (Attr (Some "2024-05-01"%string));
        article_dated (Attr (Some " 2024-02-02T08:30:00Z "%string))].
Proof.
  split; [|split; [|vm_compute; reflexivity]].
  - intros articles as_of max_age_days Hmax.
    exists (filter (article_is_recent as_of max_age_days) articles).
    split; [|split; [reflexivity|]].
    + unfold filter_recent_articles. cbn.
      rewrite recent_articles_loop_shape.
      now rewrite window_loop_in_range by exact Hmax.
    + intros a. rewrite filter_In. unfold article_is_recent.
      split; intros [Hin H]; (split; [exact Hin|]).
      * destruct (_parse_date _) as [p|]; [|discriminate].
        exists p. split; [reflexivity | now apply Z.leb_le].
      * destruct H as (p & -> & Hp). now apply Z.leb_le.
  - intros a [[-> | ->] | ->]; reflexivity.
Qed.

(** Where no name is [None] and the window is one a [timedelta] can hold,
    [filter_recent_transactions] keeps the valid transactions that are
    recent. *)
Lemma filter_recent_transactions_window txns as_of max_age_days :
  Forall (fun t => name t <> Attr None) txns ->
  Z.abs max_age_days <= 999999999 ->
  filter_recent_transactions (Some txns) as_of max_age_days =
  Ok (filter (transaction_is_recent as_of max_age_days)
        (filter transaction_is_valid txns)).
Proof.
  intros Hnames Hmax.
  unfold filter_recent_transactions, filter_valid_transactions.
  cbn [or_empty]. rewrite valid_transactions_loop_no_null by exact Hnames.
  cbn. rewrite recent_transactions_loop_shape.
  now rewrite window_loop_in_range by exact Hmax.
Qed.

(** *** Idempotence *)

Lemma filter_recent_articles_idempotent articles as_of max_age_days kept :
  filter_recent_articles articles as_of max_age_days = Ok kept ->
  filter_recent_articles (Some kept) as_of max_age_days = Ok kept.
Proof.
  unfold filter_recent_articles. cbn.
  rewrite !recent_articles_loop_shape. apply window_loop_idempotent.
Qed.

Lemma filter_recent_transactions_idempotent txns as_of max_age_days kept :
  filter_recent_transactions txns as_of max_age_days = Ok kept ->
  filter_recent_transactions (Some kept) as_of max_age_days = Ok kept.
Proof.
  unfold filter_recent_transactions.
  destruct (filter_valid_transactions txns) as [valid|e] eqn:Hvalid;
    [|discriminate].
  cbn. rewrite recent_transactions_loop_shape. intros Hkept.
  assert (Hall : Forall (fun t => transaction_is_valid t = true) kept).
  { apply valid_transactions_loop_result in Hvalid. cbn in Hvalid.
    pose proof (window_loop_result _ _ _ _ _ _ Hkept) as Hk. cbn in Hk.
    subst kept valid. apply Forall_forall. intros t Ht.
    apply filter_In in Ht. destruct Ht as [Ht _].
    now apply filter_In in Ht. }
  unfold filter_valid_transactions. cbn.
  rewrite (valid_transactions_loop_kept kept [] Hall). cbn.
  rewrite recent_transactions_loop_shape.
  now apply window_loop_idempotent in Hkept.
Qed.

(** C9: each filter, applied to a list it returned (with the same [as_of]
    and [max_age_days]), returns that list unchanged. *)
Theorem filters_idempotent :
  (forall articles as_of max_age_days kept,
      filter_recent_articles articles as_of max_age_days = Ok kept ->
      filter_recent_articles (Some kept) as_of max_age_days = Ok kept) /\
  (forall txns kept,
      filter_valid_transactions txns = Ok kept ->
      filter_valid_transactions (Some kept) = Ok kept) /\
  (forall txns as_of max_age_days kept,
      filter_recent_transactions txns as_of max_age_days = Ok kept ->
      filter_recent_transactions (Some kept) as_of max_age_days = Ok kept).
Proof.
  split; [|split].
  - exact filter_recent_articles_idempotent.
  - exact filter_valid_transactions_idempotent.
  - exact filter_recent_transactions_idempotent.
Qed.

(** C10: a collection argument that is [None] gives the empty list. *)
Theorem filters_on_None :
  (forall as_of max_age_days,
      filter_recent_articles None as_of max_age_days = Ok []) /\
  filter_valid_transactions None = Ok [] /\
  (forall as_of max_age_days,
      filter_recent_transactions None as_of max_age_days = Ok []).
Proof. repeat split. Qed.

(** C4 fails on a name that is [None]: the default of [getattr] covers a
    missing attribute only, and [None.strip()] raises [AttributeError], out
    of both functions. *)
Theorem filter_valid_transactions_raises_on_null_name :
  (forall t txns,
      In t txns -> name t = Attr None ->
      filter_valid_transactions (Some txns) = Raise AttributeError /\
      forall as_of max_age_days,
        filter_recent_transactions (Some txns) as_of max_age_days
        = Raise AttributeError) /\
  filter_valid_transactions
    (Some [transaction_of (Attr None) (Attr (Some "2024-05-01"%string))])
  = Raise AttributeError /\
  filter_recent_transactions
    (Some [transaction_of (Attr None) (Attr (Some "2024-05-01"%string))])
    june_1_2024 365
  = Raise AttributeError /\
  filter_valid_transactions
    (Some [transaction_of NoAttr (Attr (Some "2024-05-01"%string))])
  = Ok [].
Proof.
  split; [|repeat split].
  intros t txns Hin Hnull.
  assert (H : filter_valid_transactions (Some txns) = Raise AttributeError)
    by (apply (valid_transactions_loop_null t); assumption).
  split; [exact H|]. intros as_of max_age_days.
  unfold filter_recent_transactions. now rewrite H.
Qed.

(** Where no name is [None], [filter_valid_transactions] returns the
    transactions whose name is neither blank nor a placeholder. *)
Lemma filter_valid_transactions_no_null txns :
  Forall (fun t => name t <> Attr None) txns ->
  filter_valid_transactions (Some txns) =
  Ok (filter transaction_is_valid txns).
Proof.
  intros H. unfold filter_valid_transactions. cbn.
  now rewrite valid_transactions_loop_no_null.
Qed.


End Filters.

(** ** The statements at concrete inputs *)

Lemma format_percent_scaling_witness :
  format_percent (L := plain_lib) (VStr " 7 ") 1 false = Ok "7.0%"%string /\
  format_percent (L := plain_lib) (VFloat F64.lit_0_04) 3 false
  = Ok "4.000%"%string.
Proof.
  destruct (format_percent_scaling (L := plain_lib)) as (H & _).
  split.
  - destruct (H (VStr " 7 ") (F64.of_Z 7) 1 false) as [_ Hbig];
      [reflexivity | vm_compute; split; discriminate |].
    rewrite Hbig; reflexivity.
  - destruct (H (VFloat F64.lit_0_04) F64.lit_0_04 3 false) as [Hsmall _];
      [reflexivity | vm_compute; split; discriminate |].
    rewrite Hsmall; [reflexivity | right; reflexivity].
Defined.

Lemma filter_recent_articles_window_witness :
  exists kept,
    filter_recent_articles (L := plain_lib)
      (Some [article_dated (Attr (Some "not a date"%string));
             article_dated (Attr (Some "2024-05-01"%string))])
      june_1_2024 120 = Ok kept /\
    kept = [article_dated (Attr (Some "2024-05-01"%string))].
Proof.
  destruct (filter_recent_articles_window (L := plain_lib)) as (H & _).
  destruct (H [article_dated (Attr (Some "not a date"%string));
               article_dated (Attr (Some "2024-05-01"%string))]
              june_1_2024 120 ltac:(cbn; lia)) as (kept & Hk & -> & _).
  eexists. split; [exact Hk | reflexivity].
Defined.

Lemma filters_idempotent_witness :
  filter_recent_transactions (L := plain_lib)
    (Some [transaction_of (Attr (Some "Maria Chen"%string))
             (Attr (Some "2024-05-01"%string))])
    june_1_2024 365
  = Ok [transaction_of (Attr (Some "Maria Chen"%string))
          (Attr (Some "2024-05-01"%string))].
Proof.
  destruct (filters_idempotent (L := plain_lib)) as (_ & _ & H).
  apply (H (Some [transaction_of (Attr (Some "John Doe"%string))
                    (Attr (Some "2024-05-01"%string));
                  transaction_of (Attr (Some "Maria Chen"%string))
                    (Attr (Some "2024-05-01"%string));
                  transaction_of (Attr (Some "Maria Chen"%string))
                    (Attr (Some "2021-05-01"%string))])).
  reflexivity.
Defined.

Lemma filter_valid_transactions_raises_on_null_name_witness :
  filter_valid_transactions
    (Some [transaction_of (Attr (Some "Maria Chen"%string)) NoAttr;
           transaction_of (Attr None) NoAttr])
  = Raise AttributeError.
Proof.
  destruct (filter_valid_transactions_raises_on_null_name (L := plain_lib))
    as (H & _).
  apply (H (transaction_of (Attr None) NoAttr)); [|reflexivity].
  right. left. reflexivity.
Defined.

(** * Further properties *)

(** ** Validators *)

Lemma leb_false_gtb (x y : float) :
  F64.is_nan x = false -> F64.is_nan y = false ->
  (x <=? y)%f64 = false -> (x >? y)%f64 = true.
Proof.
  intros Hx Hy. unfold F64.leb, F64.gtb, SFltb, SFleb.
  destruct (SFcompare_total x y Hx Hy) as [c Hc].
  rewrite Hc, (SFcompare_antisym _ _ _ Hc).
  destruct c; simpl; congruence.
Qed.

Lemma is_nan_abs (x : float) : F64.is_nan (F64.abs x) = F64.is_nan x.
Proof. now destruct x. Qed.

(** X1: [True] is the verdict exactly on a record whose five numeric fields are
    present and fail every rejection test. *)
Theorem is_price_analysis_reliable_true_iff (pa : option PriceAnalysis) :
  is_price_analysis_reliable pa = Ok true <->
  exists r t v mn mx av,
    pa = Some r /\
    total_return_percent r = Attr (Some t) /\
    volatility r = Attr (Some v) /\
    min_price r = Attr (Some mn) /\
    max_price r = Attr (Some mx) /\
    average_volume r = Attr (Some av) /\
    (F64.abs t >? F64.of_Z 400)%f64 = false /\
    (v <? F64.of_Z 0)%f64 = false /\ (v >? F64.of_Z 200)%f64 = false /\
    (mn <=? F64.of_Z 0)%f64 = false /\ (mx <=? F64.of_Z 0)%f64 = false /\
    (mn >=? mx)%f64 = false /\ (av <=? F64.of_Z 0)%f64 = false.
Proof.
  split.
  - destruct pa as [[t v mn mx av td]|]; [|discriminate].
    destruct t as [|[t|]], v as [|[v|]], mn as [|[mn|]], mx as [|[mx|]],
        av as [|[av|]];
      try (rewrite is_price_analysis_reliable_absent;
           [discriminate | unfold absent; cbn; tauto]).
    rewrite is_price_analysis_reliable_present. intros [= H].
    apply negb_true_iff in H. repeat rewrite orb_false_iff in H.
    destruct H as ((((((H1 & H2) & H3) & H4) & H5) & H6) & H7).
    eexists _, t, v, mn, mx, av. repeat split; assumption.
  - intros ([t' v' mn' mx' av' td] & t & v & mn & mx & av & -> & Ht & Hv & Hmn
            & Hmx & Hav & H1 & H2 & H3 & H4 & H5 & H6 & H7).
    cbn in Ht, Hv, Hmn, Hmx, Hav. subst.
    rewrite is_price_analysis_reliable_present.
    now rewrite H1, H2, H3, H4, H5, H6, H7.
Qed.

Lemma is_price_analysis_reliable_true_iff_witness :
  is_price_analysis_reliable (Some well_formed_record) = Ok true.
Proof.
  apply is_price_analysis_reliable_true_iff.
  exists well_formed_record, (F64.of_Z 15), (F64.of_Z 20), (F64.of_Z 100),
    (F64.of_Z 200), (F64.of_Z 1000).
  repeat split; vm_compute; reflexivity.
Defined.

(** X2: A record judged reliable whose fields are not NaN has a return of
    magnitude at most 400, a volatility in [0, 200], prices with
    [0 < min < max] and a positive volume. *)
Theorem is_price_analysis_reliable_bounds (r : PriceAnalysis)
    (t v mn mx av : float) :
  is_price_analysis_reliable (Some r) = Ok true ->
  total_return_percent r = Attr (Some t) ->
  volatility r = Attr (Some v) ->
  min_price r = Attr (Some mn) ->
  max_price r = Attr (Some mx) ->
  average_volume r = Attr (Some av) ->
  F64.is_nan t = false -> F64.is_nan v = false -> F64.is_nan mn = false ->
  F64.is_nan mx = false -> F64.is_nan av = false ->
  (F64.abs t <=? F64.of_Z 400)%f64 = true /\
  (F64.of_Z 0 <=? v)%f64 = true /\ (v <=? F64.of_Z 200)%f64 = true /\
  (F64.of_Z 0 <? mn)%f64 = true /\ (mn <? mx)%f64 = true /\
  (F64.of_Z 0 <? av)%f64 = true.
Proof.
  intros H Ht Hv Hmn Hmx Hav Nt Nv Nmn Nmx Nav.
  destruct r as [t' v' mn' mx' av' td]. cbn in Ht, Hv, Hmn, Hmx, Hav. subst.
  rewrite is_price_analysis_reliable_present in H. injection H as H.
  apply negb_true_iff in H. repeat rewrite orb_false_iff in H.
  destruct H as ((((((H1 & H2) & H3) & H4) & H5) & H6) & H7).
  repeat split.
  - apply (ltb_false_geb (F64.of_Z 400) (F64.abs t));
      [reflexivity | now rewrite is_nan_abs | exact H1].
  - apply (ltb_false_geb v (F64.of_Z 0)); [assumption | reflexivity | exact H2].
  - apply (ltb_false_geb (F64.of_Z 200) v);
      [reflexivity | assumption | exact H3].
  - apply (leb_false_gtb mn (F64.of_Z 0));
      [assumption | reflexivity | exact H4].
  - apply (leb_false_gtb mx mn); assumption.
  - apply (leb_false_gtb av (F64.of_Z 0));
      [assumption | reflexivity | exact H7].
Qed.

Lemma is_price_analysis_reliable_bounds_witness :
  (F64.abs (F64.of_Z 15) <=? F64.of_Z 400)%f64 = true /\
  (F64.of_Z 0 <=? F64.of_Z 20)%f64 = true /\
  (F64.of_Z 20 <=? F64.of_Z 200)%f64 = true /\
  (F64.of_Z 0 <? F64.of_Z 100)%f64 = true /\
  (F64.of_Z 100 <? F64.of_Z 200)%f64 = true /\
  (F64.of_Z 0 <? F64.of_Z 1000)%f64 = true.
Proof.
  apply (is_price_analysis_reliable_bounds well_formed_record);
    vm_compute; reflexivity.
Defined.

Lemma is_valid_volatility_metrics_present (m : VolatilityMetrics)
    (hv md : float) :
  getattr_None (historical_volatility m) = Some hv ->
  getattr_None (max_drawdown m) = Some md ->
  is_valid_volatility_metrics (Some m) =
  Ok (negb ((hv <? F64.of_Z 0)%f64 || (hv >? F64.of_Z 250)%f64
            || (md >? F64.of_Z 0)%f64 || (md <? F64.of_Z (-100))%f64)).
Proof.
  intros Hhv Hmd.
  unfold is_valid_volatility_metrics, volatility_checks.
  rewrite Hhv, Hmd. cbn.
  destruct (hv <? _)%f64; cbn; try reflexivity.
  destruct (hv >? _)%f64; cbn; try reflexivity.
  destruct (md >? _)%f64; cbn; try reflexivity.
  destruct (md <? _)%f64; reflexivity.
Qed.




(** X4: Metrics judged valid whose two checked fields are not NaN have a
    historical volatility in [0, 250] and a drawdown in [-100, 0]. *)
Theorem is_valid_volatility_metrics_bounds (m : VolatilityMetrics)
    (hv md : float) :
  is_valid_volatility_metrics (Some m) = Ok true ->
  getattr_None (historical_volatility m) = Some hv ->
  getattr_None (max_drawdown m) = Some md ->
  F64.is_nan hv = false -> F64.is_nan md = false ->
  (F64.of_Z 0 <=? hv)%f64 = true /\ (hv <=? F64.of_Z 250)%f64 = true /\
  (F64.of_Z (-100) <=? md)%f64 = true /\ (md <=? F64.of_Z 0)%f64 = true.
Proof.
  intros H Hhv Hmd Nhv Nmd.
  rewrite (is_valid_volatility_metrics_present m hv md Hhv Hmd) in H.
  injection H as H. apply negb_true_iff in H.
  repeat rewrite orb_false_iff in H.
  destruct H as (((H1 & H2) & H3) & H4).
  repeat split.
  - apply (ltb_false_geb hv (F64.of_Z 0));
      [assumption | reflexivity | exact H1].
  - apply (ltb_false_geb (F64.of_Z 250) hv);
      [reflexivity | assumption | exact H2].
  - apply (ltb_false_geb md (F64.of_Z (-100)));
      [assumption | reflexivity | exact H4].
  - apply (ltb_false_geb (F64.of_Z 0) md);
      [reflexivity | assumption | exact H3].
Qed.

Lemma is_valid_volatility_metrics_bounds_witness :
  (F64.of_Z 0 <=? F64.of_Z 35)%f64 = true /\
  (F64.of_Z 35 <=? F64.of_Z 250)%f64 = true /\
  (F64.of_Z (-100) <=? F64.of_Z (-20))%f64 = true /\
  (F64.of_Z (-20) <=? F64.of_Z 0)%f64 = true.
Proof.
  apply (is_valid_volatility_metrics_bounds
           {| historical_volatility := Attr (Some (F64.of_Z 35));
              max_drawdown := Attr (Some (F64.of_Z (-20)));
              metrics_beta := NoAttr;
              sharpe_ratio := Attr None;
              volatility_regime := NoAttr |});
    vm_compute; reflexivity.
Defined.

(** ** Dividend yield *)

Lemma leb_quarter_small (r : float) :
  (r <=? F64.lit_0_25)%f64 = true ->
  (r >? F64.of_Z 1000)%f64 = false /\ (r >? F64.of_Z 50)%f64 = false /\
  (r >? F64.of_Z 1)%f64 = false.
Proof.
  rewrite of_Z_1000, of_Z_50, of_Z_1.
  unfold F64.leb, F64.gtb, F64.lit_0_25, SFleb, SFltb, SFcompare.
  destruct r as [s|s| |s m e]; try discriminate; destruct s;
    try discriminate; intros H; repeat split; try reflexivity;
    destruct (Z.compare_spec e (-54)); try discriminate;
    repeat match goal with
           | |- context [Z.compare ?a ?b] => destruct (Z.compare_spec a b)
           end; try reflexivity; lia.
Qed.

(** X5: Sanitizing is idempotent: a yield that came out of
    [sanitize_dividend_yield] goes through it unchanged. *)
Theorem sanitize_dividend_yield_idempotent (raw : option float) :
  sanitize_dividend_yield (sanitize_dividend_yield raw) =
  sanitize_dividend_yield raw.
Proof.
  destruct raw as [raw|]; [|reflexivity].
  destruct (sanitize_dividend_yield (Some raw)) as [r|] eqn:E; [|reflexivity].
  revert E. unfold sanitize_dividend_yield.
  destruct (raw <? F64.of_Z 0)%f64 eqn:H0; [discriminate|].
  destruct (raw >? F64.of_Z 1000)%f64 eqn:H1000; [discriminate|].
  destruct (raw >? F64.of_Z 50)%f64 eqn:H50; [discriminate|].
  destruct (raw >? F64.of_Z 1)%f64 eqn:H1.
  - destruct (_ <=? F64.lit_0_25)%f64 eqn:Hq; [|discriminate].
    intros [= <-].
    destruct (leb_quarter_small _ Hq) as (Ha & Hb & Hc).
    rewrite Ha, Hb, Hc.
    destruct (gtb_one_positive raw H1) as [-> | (m & e & ->)];
      [discriminate Hq|].
    destruct (nonneg_leb_quarter _ (div_100_sign m e) Hq) as [Hpos _].
    now rewrite (geb_true_ltb _ _ Hpos).
  - intros [= <-]. now rewrite H0, H1000, H50, H1.
Qed.

(** ** Formatters: scaling, shape and errors *)

Lemma format_float_f_valid (f : float) (decimals : Z) (comma : bool) :
  0 <= decimals <= INT_MAX ->
  format_float_f f decimals comma =
  Ok (fixed_point f (Z.to_nat decimals) comma).
Proof.
  intros H. unfold format_float_f, precision_parses.
  replace (0 <=? decimals) with true by lia.
  replace (decimals <=? PY_SSIZE_T_MAX) with true
    by (unfold PY_SSIZE_T_MAX, INT_MAX in *; lia).
  replace (INT_MAX <? decimals) with false by lia. reflexivity.
Qed.

Lemma format_float_f_invalid (f : float) (decimals : Z) (comma : bool) :
  ~ 0 <= decimals <= INT_MAX ->
  format_float_f f decimals comma = Raise ValueError.
Proof.
  intros H. unfold format_float_f, precision_parses.
  destruct (Z.leb_spec 0 decimals); [|reflexivity].
  destruct (Z.leb_spec decimals PY_SSIZE_T_MAX); [|reflexivity].
  destruct (Z.ltb_spec INT_MAX decimals); [reflexivity|]. cbn. lia.
Qed.

Lemma float_of_int_raise (z : Z) (e : exn) :
  float_of_int z = Raise e -> e = OverflowError.
Proof.
  unfold float_of_int. destruct (F64.of_Z z); congruence.
Qed.

Lemma filter_weaker {A : Type} (p q : A -> bool) (l : list A) :
  (forall x, p x = true -> q x = true) ->
  filter p (filter q l) = filter p l.
Proof.
  intros H. induction l as [|x l IH]; cbn; [reflexivity|].
  destruct (q x) eqn:Hq; cbn; rewrite IH; [reflexivity|].
  destruct (p x) eqn:Hp; [|reflexivity].
  apply H in Hp. congruence.
Qed.

Lemma is_digit_not_comma (c : ascii) : is_digit c = true -> not_comma c = true.
Proof.
  unfold not_comma. destruct (Ascii.eqb_spec c ","%char) as [-> | _];
    [discriminate | reflexivity].
Qed.

(** The separators are the only difference between the grouped and the
    plain fixed-point text. *)
Lemma render_fixed_ungroup (s : bool) (n : Z) (d : nat) :
  filter not_comma (list_ascii_of_string (render_fixed s n d true)) =
  list_ascii_of_string (render_fixed s n d false).
Proof.
  unfold render_fixed.
  rewrite !list_ascii_of_string_app, !list_ascii_of_string_of_list_ascii.
  rewrite !filter_app.
  rewrite group_thousands_ungroup
    by (apply (digits_Forall (fun c => not_comma c = true)); reflexivity).
  f_equal; [destruct s; reflexivity|]. f_equal.
  destruct d as [|d']; [reflexivity|].
  apply forallb_filter_id, forallb_forall, Forall_forall.
  change (list_ascii_of_string
            ("." ++ string_of_list_ascii
                      (frac_digits (S d') (n mod 10 ^ Z.of_nat (S d')))))
    with ("."%char :: list_ascii_of_string
                        (string_of_list_ascii
                           (frac_digits (S d') (n mod 10 ^ Z.of_nat (S d'))))).
  rewrite list_ascii_of_string_of_list_ascii.
  constructor; [reflexivity|].
  apply (frac_digits_Forall (fun c => not_comma c = true)).
  apply (digit_char_cases (fun c => not_comma c = true)); reflexivity.
Qed.

Lemma fixed_point_ungroup (f : float) (d : nat) :
  filter not_comma (list_ascii_of_string (fixed_point f d true)) =
  list_ascii_of_string (fixed_point f d false).
Proof.
  destruct f as [s|s| |s m e]; cbn [fixed_point];
    try apply render_fixed_ungroup; [destruct s|]; reflexivity.
Qed.

(** A finite double in grouped fixed-point notation shows exactly [d]
    decimals. *)
Lemma fixed_point_decimals_grouped (f : float) (d : nat) :
  F64.is_finite f = true ->
  decimals_shown (list_ascii_of_string (fixed_point f d true)) = d.
Proof.
  assert (Hr : forall s n,
             decimals_shown (list_ascii_of_string (render_fixed s n d true))
             = d).
  { intros s n. unfold render_fixed.
    rewrite !list_ascii_of_string_app, list_ascii_of_string_of_list_ascii.
    rewrite app_assoc.
    assert (Hpre : Forall (fun c => Ascii.eqb c "." = false)
                     (list_ascii_of_string (if s then "-" else "")
                      ++ group_thousands (digits (n / 10 ^ Z.of_nat d)))).
    { apply Forall_app. split.
      - destruct s; cbn; repeat constructor.
      - apply group_thousands_Forall; [reflexivity|].
        apply (digits_Forall (fun c => Ascii.eqb c "." = false));
          reflexivity. }
    destruct d as [|d'].
    - cbn [list_ascii_of_string]. rewrite app_nil_r.
      now apply decimals_shown_no_dot.
    - cbn [list_ascii_of_string append].
      rewrite list_ascii_of_string_of_list_ascii.
      rewrite decimals_shown_app by exact Hpre.
      apply frac_digits_length. }
  destruct f as [s|s| |s m e]; try discriminate; intros _; apply Hr.
Qed.

Lemma fixed_point_digits_grouped (f : float) (d : nat) :
  digits_of_text (fixed_point f d true) =
  digits_of_text (fixed_point f d false).
Proof.
  unfold digits_of_text.
  rewrite <- (filter_weaker is_digit not_comma) by exact is_digit_not_comma.
  now rewrite fixed_point_ungroup.
Qed.

Section FormatterErrors.
Context `{L : PyLib}.

Lemma py_float_raise (raw : value) (e : exn) :
  py_float raw = Raise e ->
  e = TypeError \/ e = ValueError \/ (e = OverflowError /\ int_overflows raw).
Proof.
  destruct raw as [|b|z|f|s|]; cbn; try discriminate;
    try (intros [= <-]; tauto).
  - intros H. right; right.
    split; [exact (float_of_int_raise z e H)|].
    exists z. split; [reflexivity|].
    now rewrite <- (float_of_int_raise z e H).
  - destruct (float_of_str s); [discriminate|]. intros [= <-]. tauto.
Qed.

Lemma int_overflows_py_float (raw : value) :
  int_overflows raw -> py_float raw = Raise OverflowError.
Proof. intros (z & -> & H). exact H. Qed.

(** X6: A fraction and its percent value give the same text: when the
    magnitude of [x] is at most 1 and that of [x * 100] is above 1,
    [format_percent] of [x] and of [x * 100] coincide. *)
Theorem format_percent_fraction_or_percent (x : float) (decimals : Z) :
  (F64.abs x <=? F64.of_Z 1)%f64 = true ->
  (F64.abs (x * F64.of_Z 100) <=? F64.of_Z 1)%f64 = false ->
  format_percent (VFloat x) decimals false =
  format_percent (VFloat (x * F64.of_Z 100)%f64) decimals false.
Proof.
  intros H1 H2. unfold format_percent. cbn [py_float orb].
  now rewrite H1, H2.
Qed.

(** X7: [format_percent] raises in two cases only: [OverflowError] on an [int]
    too large for a double, and [ValueError] when [float] accepts the input
    and [decimals] is not a precision between 0 and [INT_MAX]. *)
Theorem format_percent_raises_iff (raw : value) (decimals : Z)
    (assume_fractional : bool) (e : exn) :
  format_percent raw decimals assume_fractional = Raise e <->
  (e = OverflowError /\ int_overflows raw) \/
  (e = ValueError /\ (exists f, py_float raw = Ok f) /\
   ~ 0 <= decimals <= INT_MAX).
Proof.
  assert (Hbody : format_percent raw decimals assume_fractional =
                  match raw with
                  | VNone => Ok NA
                  | _ =>
                      match py_float raw with
                      | Raise TypeError | Raise ValueError => Ok NA
                      | Raise e => Raise e
                      | Ok value =>
                          s <- format_float_f
                                 (if assume_fractional
                                     || (F64.abs value <=? F64.of_Z 1)%f64
                                  then (value * F64.of_Z 100)%f64 else value)
                                 decimals false ;;
                          Ok (s ++ "%")%string
                      end
                  end) by reflexivity.
  destruct (py_float raw) as [f|e'] eqn:Hf.
  - assert (Hraw : format_percent raw decimals assume_fractional =
                   (s <- format_float_f
                           (if assume_fractional
                               || (F64.abs f <=? F64.of_Z 1)%f64
                            then (f * F64.of_Z 100)%f64 else f)
                           decimals false ;;
                    Ok (s ++ "%")%string))
      by (rewrite Hbody; destruct raw; try reflexivity; discriminate Hf).
    rewrite Hraw.
    destruct (Z_le_dec 0 decimals) as [H0 | H0];
      [destruct (Z_le_dec decimals INT_MAX) as [H1 | H1]|].
    + rewrite format_float_f_valid by lia. cbn. split; [discriminate|].
      intros [[_ Ho] | (_ & _ & Hd)]; [|lia].
      apply int_overflows_py_float in Ho. congruence.
    + rewrite format_float_f_invalid by lia. cbn. split.
      * intros [= <-]. right. split; [reflexivity|]. split; [now exists f|lia].
      * intros [[_ Ho] | (-> & _)]; [|reflexivity].
        apply int_overflows_py_float in Ho. congruence.
    + rewrite format_float_f_invalid by lia. cbn. split.
      * intros [= <-]. right. split; [reflexivity|]. split; [now exists f|lia].
      * intros [[_ Ho] | (-> & _)]; [|reflexivity].
        apply int_overflows_py_float in Ho. congruence.
  - destruct (py_float_raise raw e' Hf) as [-> | [-> | [-> Ho]]].
    + assert (Hraw : format_percent raw decimals assume_fractional = Ok NA)
        by (rewrite Hbody; destruct raw; reflexivity).
      rewrite Hraw. split; [discriminate|].
      intros [[_ Ho] | (_ & [f Hf'] & _)]; [|discriminate].
      apply int_overflows_py_float in Ho. congruence.
    + assert (Hraw : format_percent raw decimals assume_fractional = Ok NA)
        by (rewrite Hbody; destruct raw; reflexivity).
      rewrite Hraw. split; [discriminate|].
      intros [[_ Ho] | (_ & [f Hf'] & _)]; [|discriminate].
      apply int_overflows_py_float in Ho. congruence.
    + assert (Hraw : format_percent raw decimals assume_fractional
                     = Raise OverflowError)
        by (rewrite Hbody; destruct raw; try reflexivity; discriminate Hf).
      rewrite Hraw. split.
      * intros [= <-]. left. now split.
      * intros [[-> _] | (_ & [f Hf'] & _)]; [reflexivity | discriminate].
Qed.

Lemma format_currency_of_float (raw : value) (f : float) :
  py_float raw = Ok f ->
  format_currency raw = Ok ("$" ++ fixed_point f 2 true)%string.
Proof.
  intros Hf. unfold format_currency. rewrite Hf.
  destruct raw; try reflexivity. discriminate Hf.
Qed.

(** X8: [format_currency] of an input that [float] turns into a finite double
    is a dollar sign followed by the grouped fixed-point text: exactly two
    decimals, digits that denote the magnitude times 100 rounded to the
    nearest integer (ties to even), and separators whose removal leaves the
    plain fixed-point text. *)
Theorem format_currency_shape (raw : value) (f : float) :
  py_float raw = Ok f -> F64.is_finite f = true ->
  format_currency raw = Ok ("$" ++ fixed_point f 2 true)%string /\
  decimals_shown (list_ascii_of_string (fixed_point f 2 true)) = 2%nat /\
  filter not_comma (list_ascii_of_string (fixed_point f 2 true)) =
    list_ascii_of_string (fixed_point f 2 false) /\
  nearest_ties_even (Z.abs (float_num f) * 100) (float_den f)
    (digits_value (digits_of_text (fixed_point f 2 true))).
Proof.
  intros Hf Hfin. split; [now apply format_currency_of_float|].
  split; [now apply fixed_point_decimals_grouped|].
  split; [apply fixed_point_ungroup|].
  rewrite fixed_point_digits_grouped.
  exact (fixed_point_digits f 2 Hfin).
Qed.

(** X9: [format_currency] raises only [OverflowError], and only on an [int] too
    large for a double. *)
Theorem format_currency_raises_iff (raw : value) (e : exn) :
  format_currency raw = Raise e <-> e = OverflowError /\ int_overflows raw.
Proof.
  destruct (py_float raw) as [f|e'] eqn:Hf.
  - rewrite (format_currency_of_float raw f Hf). split; [discriminate|].
    intros [_ Ho]. apply int_overflows_py_float in Ho. congruence.
  - assert (Hbody : format_currency raw =
                    match raw with
                    | VNone => Ok NA
                    | _ =>
                        match e' with
                        | TypeError | ValueError => Ok NA
                        | _ => Raise e'
                        end
                    end)
      by (unfold format_currency; rewrite Hf; reflexivity).
    destruct (py_float_raise raw e' Hf) as [-> | [-> | [-> Ho]]].
    + replace (format_currency raw) with (@Ok string NA)
        by (rewrite Hbody; destruct raw; reflexivity).
      split; [discriminate|]. intros [_ Ho].
      apply int_overflows_py_float in Ho. congruence.
    + replace (format_currency raw) with (@Ok string NA)
        by (rewrite Hbody; destruct raw; reflexivity).
      split; [discriminate|]. intros [_ Ho].
      apply int_overflows_py_float in Ho. congruence.
    + replace (format_currency raw) with (@Raise string OverflowError)
        by (rewrite Hbody; destruct raw; try reflexivity; discriminate Hf).
      split; [intros [= <-]; now split | now intros [-> _]].
Qed.

(** X10: [format_integer] answers "N/A" on NaN, and raises only [OverflowError]:
    on an [int] too large for a double and on an input that [float] turns
    into an infinity. *)
Theorem format_integer_raises_iff (raw : value) (e : exn) :
  (py_float raw = Ok S754_nan -> format_integer raw = Ok NA) /\
  (format_integer raw = Raise e <->
   e = OverflowError /\
   (int_overflows raw \/ exists s, py_float raw = Ok (S754_infinity s))).
Proof.
  assert (Hbody : format_integer raw =
                  match raw with
                  | VNone => Ok NA
                  | _ =>
                      match (f <- py_float raw ;;
                             n <- py_round f ;;
                             Ok (format_int_comma n)) with
                      | Raise TypeError | Raise ValueError => Ok NA
                      | r => r
                      end
                  end) by reflexivity.
  destruct (py_float raw) as [f|e'] eqn:Hf.
  - assert (Hraw : format_integer raw =
                   match py_round f with
                   | Ok n => Ok (format_int_comma n)
                   | Raise TypeError | Raise ValueError => Ok NA
                   | Raise e => Raise e
                   end).
    { rewrite Hbody. destruct raw; try discriminate Hf; cbn;
        destruct (py_round f) as [n|[]]; reflexivity. }
    rewrite Hraw. split.
    + intros [= ->]. reflexivity.
    + destruct f as [s|s| |s m x]; cbn.
      * split; [discriminate|].
        intros [_ [Ho | [s' H]]]; [|discriminate].
        apply int_overflows_py_float in Ho. congruence.
      * split; [intros [= <-]; split; [reflexivity|right; now exists s]|].
        now intros [-> _].
      * split; [discriminate|].
        intros [_ [Ho | [s' H]]]; [|discriminate].
        apply int_overflows_py_float in Ho. congruence.
      * split; [discriminate|].
        intros [_ [Ho | [s' H]]]; [|discriminate].
        apply int_overflows_py_float in Ho. congruence.
  - split; [discriminate|].
    destruct (py_float_raise raw e' Hf) as [-> | [-> | [-> Ho]]].
    + replace (format_integer raw) with (@Ok string NA)
        by (rewrite Hbody; destruct raw; reflexivity).
      split; [discriminate|].
      intros [_ [Ho | [s' H]]]; [|discriminate].
      apply int_overflows_py_float in Ho. congruence.
    + replace (format_integer raw) with (@Ok string NA)
        by (rewrite Hbody; destruct raw; reflexivity).
      split; [discriminate|].
      intros [_ [Ho | [s' H]]]; [|discriminate].
      apply int_overflows_py_float in Ho. congruence.
    + replace (format_integer raw) with (@Raise string OverflowError)
        by (rewrite Hbody; destruct raw; try reflexivity; discriminate Hf).
      split; [|now intros [-> _]].
      intros [= <-]. split; [reflexivity | now left].
Qed.

(** [format_ratio] of a number (a [float], an [int] or a [bool]) is the
    fixed-point text of [float] of it, whatever its type. *)
Theorem format_ratio_of_number (raw : value) (f : float) (decimals : Z) :
  is_number raw = true -> py_float raw = Ok f ->
  format_ratio raw decimals = format_float_f f decimals false.
Proof.
  destruct raw as [|b|z|x|s|]; try discriminate; intros _; cbn.
  - now intros [= <-].
  - intros Hz. rewrite Hz. cbn.
    unfold format_float_f. destruct (precision_parses decimals); reflexivity.
  - now intros [= <-].
Qed.


End FormatterErrors.

(** ** Filters: errors and composition *)

Lemma window_loop_overflow {A : Type} (date_of : A -> option date)
    (as_of : date) (max_age_days : Z) (xs recent : list A) :
  ~ Z.abs max_age_days <= 999999999 ->
  existsb (fun x => match date_of x with Some _ => true | None => false end)
    xs = true ->
  window_loop date_of as_of max_age_days xs recent = Raise OverflowError.
Proof.
  intros Hmax. revert recent.
  induction xs as [|x xs IH]; intros recent; cbn; [discriminate|].
  unfold timedelta_days. destruct (date_of x) as [d|]; cbn.
  - destruct (Z.leb_spec (Z.abs max_age_days) 999999999); [lia|]. reflexivity.
  - apply IH.
Qed.

Lemma window_loop_undated {A : Type} (date_of : A -> option date)
    (as_of : date) (max_age_days : Z) (xs recent : list A) :
  existsb (fun x => match date_of x with Some _ => true | None => false end)
    xs = false ->
  window_loop date_of as_of max_age_days xs recent = Ok recent.
Proof.
  revert recent. induction xs as [|x xs IH]; intros recent; cbn;
    [reflexivity|].
  destruct (date_of x) as [d|]; cbn; [discriminate | apply IH].
Qed.

Section FilterComposition.
Context `{L : PyLib}.

(** X12: [filter_recent_articles] raises only [OverflowError], and exactly when
    the window is longer than a [timedelta] can hold and some article has
    a date that parses. *)
Theorem filter_recent_articles_raises_iff (articles : list Article)
    (as_of : date) (max_age_days : Z) (e : exn) :
  filter_recent_articles (Some articles) as_of max_age_days = Raise e <->
  e = OverflowError /\ ~ Z.abs max_age_days <= 999999999 /\
  existsb has_date articles = true.
Proof.
  unfold filter_recent_articles. cbn [or_empty].
  rewrite recent_articles_loop_shape.
  destruct (Z_le_dec (Z.abs max_age_days) 999999999) as [Hmax | Hmax].
  - rewrite window_loop_in_range by exact Hmax.
    split; [discriminate | tauto].
  - destruct (existsb has_date articles) eqn:Hd.
    + rewrite window_loop_overflow by assumption.
      split; [intros [= <-]; tauto | now intros [-> _]].
    + rewrite window_loop_undated by exact Hd.
      split; [discriminate | intros (_ & _ & H); discriminate H].
Qed.

(** X13: Narrowing the window afterwards gives what the narrow window gives at
    once: for [narrow <= wide], filtering the articles kept for [wide] with
    [narrow] returns the articles kept for [narrow]. *)
Theorem filter_recent_articles_narrowing (articles : list Article)
    (as_of : date) (narrow wide : Z) :
  narrow <= wide ->
  Z.abs narrow <= 999999999 -> Z.abs wide <= 999999999 ->
  (kept <- filter_recent_articles (Some articles) as_of wide ;;
   filter_recent_articles (Some kept) as_of narrow) =
  filter_recent_articles (Some articles) as_of narrow.
Proof.
  intros Hle Hn Hw. unfold filter_recent_articles. cbn [or_empty].
  rewrite !recent_articles_loop_shape.
  rewrite (window_loop_in_range _ _ wide) by exact Hw. cbn.
  rewrite recent_articles_loop_shape.
  rewrite !window_loop_in_range by exact Hn. cbn. f_equal.
  apply filter_weaker. intros a. unfold within_window.
  destruct (article_date a); [|discriminate]. lia.
Qed.

(** X14: [filter_valid_transactions] raises [AttributeError] when some name is
    [None], and otherwise returns, in input order, the transactions whose
    name (a missing one counting as empty) is neither blank nor, once
    stripped and lower-cased, a placeholder. *)
Theorem filter_valid_transactions_exact (txns : list InsiderTransaction) :
  filter_valid_transactions (Some txns) =
  if existsb name_is_None txns then Raise AttributeError
  else Ok (filter transaction_is_valid txns).
Proof.
  destruct (existsb name_is_None txns) eqn:E.
  - apply existsb_exists in E. destruct E as (t & Hin & Ht).
    apply (valid_transactions_loop_null t); [exact Hin|].
    unfold name_is_None in Ht. now destruct (name t) as [|[s|]].
  - apply filter_valid_transactions_no_null.
    apply Forall_forall. intros t Hin Hnull.
    assert (existsb name_is_None txns = true); [|congruence].
    apply existsb_exists. exists t. split; [exact Hin|].
    unfold name_is_None. now rewrite Hnull.
Qed.

(** X15: What [filter_recent_transactions] returns is what recency keeps of the
    result of [filter_valid_transactions]: every transaction it returns is
    valid and recent, in the order of the input. *)
Theorem filter_recent_transactions_composes
    (txns : option (list InsiderTransaction)) (as_of : date)
    (max_age_days : Z) (kept : list InsiderTransaction) :
  filter_recent_transactions txns as_of max_age_days = Ok kept ->
  exists valid,
    filter_valid_transactions txns = Ok valid /\
    valid = filter transaction_is_valid (or_empty txns) /\
    kept = filter (transaction_is_recent as_of max_age_days) valid /\
    forall t, In t kept ->
              In t (or_empty txns) /\ transaction_is_valid t = true /\
              transaction_is_recent as_of max_age_days t = true.
Proof.
  unfold filter_recent_transactions.
  destruct (filter_valid_transactions txns) as [valid|e] eqn:Hvalid;
    [|discriminate].
  cbn. rewrite recent_transactions_loop_shape. intros Hkept.
  apply window_loop_result in Hkept. cbn in Hkept.
  unfold filter_valid_transactions in Hvalid.
  apply valid_transactions_loop_result in Hvalid. cbn in Hvalid.
  exists valid. repeat split; try assumption; subst kept valid.
  - apply filter_In in H. destruct H as [H _]. now apply filter_In in H.
  - apply filter_In in H. destruct H as [H _]. now apply filter_In in H.
  - apply filter_In in H. now destruct H.
Qed.

End FilterComposition.

(** ** Callers *)

Lemma append_assoc (a b c : string) :
  ((a ++ b) ++ c)%string = (a ++ (b ++ c))%string.
Proof. induction a as [|x a IH]; cbn; [reflexivity | now rewrite IH]. Qed.


Lemma length_append (a b : string) :
  String.length (a ++ b) = (String.length a + String.length b)%nat.
Proof. induction a as [|x a IH]; cbn; [reflexivity | now rewrite IH]. Qed.

Lemma length_string_of_list_ascii (l : list ascii) :
  String.length (string_of_list_ascii l) = List.length l.
Proof. induction l as [|x l IH]; cbn; [reflexivity | now rewrite IH]. Qed.

Lemma length_list_ascii_of_string (s : string) :
  List.length (list_ascii_of_string s) = String.length s.
Proof. induction s as [|x s IH]; cbn; [reflexivity | now rewrite IH]. Qed.

Lemma length_lstrip (l : list ascii) :
  (List.length (lstrip l) <= List.length l)%nat.
Proof.
  induction l as [|c l IH]; cbn; [lia|]. destruct (is_space c); cbn; lia.
Qed.

Lemma length_rstrip (s : string) :
  (String.length (rstrip s) <= String.length s)%nat.
Proof.
  unfold rstrip. rewrite length_string_of_list_ascii, length_rev.
  etransitivity; [apply length_lstrip|].
  now rewrite length_rev, length_list_ascii_of_string.
Qed.

(** X16: The snippet of an article is at most 240 characters long; a content
    that, stripped, has at most 240 characters is shown stripped and whole,
    a longer one is cut to at most 237 characters followed by "...". *)
Theorem snippet_of_bounded (content : option string) :
  (String.length (snippet_of content) <= 240)%nat /\
  ((String.length (strip (or_empty_string content)) <= 240)%nat ->
   snippet_of content = strip (or_empty_string content)) /\
  ((240 < String.length (strip (or_empty_string content)))%nat ->
   exists head, snippet_of content = (head ++ "...")%string /\
                (String.length head <= 237)%nat).
Proof.
  unfold snippet_of.
  set (s := strip (or_empty_string content)).
  assert (Hcut : (String.length (rstrip (prefix 237 s)) <= 237)%nat).
  { etransitivity; [apply length_rstrip|]. unfold prefix.
    rewrite length_string_of_list_ascii. apply firstn_le_length. }
  destruct (Nat.ltb_spec 240 (String.length s)) as [Hlong | Hshort].
  - split;
      [rewrite length_append; change (String.length "...") with 3%nat; lia|].
    split; [lia|]. intros _. now eexists.
  - split; [exact Hshort|]. split; [reflexivity | lia].
Qed.

Lemma snippet_of_bounded_witness :
  snippet_of (Some "  Quarterly results beat expectations. "%string)
  = "Quarterly results beat expectations."%string.
Proof.
  destruct (snippet_of_bounded
              (Some "  Quarterly results beat expectations. "%string))
    as (_ & H & _).
  rewrite H; [reflexivity | apply Nat.leb_le; vm_compute; reflexivity].
Defined.

Lemma percent_text_not_NA (body : string) : (body ++ "%")%string <> NA.
Proof.
  destruct body as [|a [|b [|c [|d body]]]]; cbn; unfold NA; congruence.
Qed.

Lemma dollar_text_not_NA (body : string) : ("$" ++ body)%string <> NA.
Proof. cbn. unfold NA. congruence. Qed.

Lemma format_int_comma_not_NA (n : Z) : format_int_comma n <> NA.
Proof.
  assert (H : Forall (fun c => Ascii.eqb c "N" = false)
                (list_ascii_of_string (format_int_comma n))).
  { unfold format_int_comma.
    rewrite list_ascii_of_string_app, list_ascii_of_string_of_list_ascii.
    apply Forall_app. split.
    - destruct (n <? 0); repeat constructor.
    - apply group_thousands_Forall; [reflexivity|].
      apply (digits_Forall (fun c => Ascii.eqb c "N" = false));
        reflexivity. }
  intros E. rewrite E in H. inversion H as [|? ? Hc _]. discriminate Hc.
Qed.

Section Callers.
Context `{L : PyLib}.

Lemma format_percent_of_float (x : float) (af : bool) :
  format_percent (VFloat x) 2 af =
  Ok (fixed_point (if af || (F64.abs x <=? F64.of_Z 1)%f64
                   then (x * F64.of_Z 100)%f64 else x) 2 false ++ "%")%string.
Proof. reflexivity. Qed.


(** Without a record that passes [is_price_analysis_reliable], the price
    block is its fallback line; it does not raise. *)
Theorem price_analysis_block_unreliable (title : string -> string)
    (price_analysis : attr PriceAnalysis) :
  getattr_None price_analysis = None \/
  is_price_analysis_reliable (getattr_None price_analysis) = Ok false ->
  price_analysis_block title price_analysis =
  Ok (price_header ++ unavailable)%string.
Proof.
  unfold price_analysis_block.
  destruct (getattr_None price_analysis) as [pa|]; intros [H | H];
    try discriminate; try reflexivity.
  rewrite H. reflexivity.
Qed.

(** X18: For a record that passes [is_price_analysis_reliable] the four numeric
    lines are never "N/A" unless the volume is NaN, and the block raises in
    two cases only: [OverflowError] when the volume is infinite,
    [AttributeError] when [trend_direction] is missing or [None]. *)
Theorem price_analysis_block_reliable (title : string -> string)
    (price_analysis : attr PriceAnalysis) (pa : PriceAnalysis)
    (t v mn mx av : float) :
  getattr_None price_analysis = Some pa ->
  is_price_analysis_reliable (Some pa) = Ok true ->
  total_return_percent pa = Attr (Some t) ->
  volatility pa = Attr (Some v) ->
  min_price pa = Attr (Some mn) ->
  max_price pa = Attr (Some mx) ->
  average_volume pa = Attr (Some av) ->
  match av with
  | S754_infinity _ =>
      price_analysis_block title price_analysis = Raise OverflowError
  | _ =>
      match trend_direction pa with
      | Attr (Some direction) =>
          exists ret vol lo hi volume,
            price_analysis_block title price_analysis =
            Ok (price_header
                ++ "- **Total Return (1y):** " ++ ret ++ nl
                ++ "- **Volatility:** " ++ vol ++ nl
                ++ "- **Price Range (1y):** " ++ lo ++ " - " ++ hi ++ nl
                ++ "- **Average Volume:** " ++ volume ++ nl
                ++ "- **Trend Direction:** " ++ title direction ++ nl ++ nl)
               %string /\
            format_percent (VFloat t) 2 false = Ok ret /\ ret <> NA /\
            format_percent (VFloat v) 2 false = Ok vol /\ vol <> NA /\
            format_currency (VFloat mn) = Ok lo /\ lo <> NA /\
            format_currency (VFloat mx) = Ok hi /\ hi <> NA /\
            format_integer (VFloat av) = Ok volume /\
            (F64.is_nan av = false -> volume <> NA)
      | _ => price_analysis_block title price_analysis = Raise AttributeError
      end
  end.
Proof.
  intros Hpa Hrel Ht Hv Hmn Hmx Hav.
  unfold price_analysis_block. rewrite Hpa, Hrel. cbn [bind].
  rewrite Ht, Hv, Hmn, Hmx, Hav. cbn [get bind value_of].
  rewrite !format_percent_of_float. cbn [bind orb].
  change (format_currency (VFloat mn))
    with (@Ok string ("$" ++ fixed_point mn 2 true)%string).
  change (format_currency (VFloat mx))
    with (@Ok string ("$" ++ fixed_point mx 2 true)%string).
  cbn [bind].
  assert (Hint : format_integer (VFloat av) =
                 match av with
                 | S754_nan => Ok NA
                 | S754_infinity _ => Raise OverflowError
                 | _ => match py_round av with
                        | Ok n => Ok (format_int_comma n)
                        | Raise e => Raise e
                        end
                 end) by (destruct av; reflexivity).
  destruct av as [s|s| |s m e]; rewrite Hint; cbn [py_round bind];
    try reflexivity;
    (destruct (trend_direction pa) as [|[direction|]];
     [reflexivity | | reflexivity]);
    cbn [get bind]; eexists _, _, _, _, _;
    (split; cycle 1;
     [repeat split;
      try reflexivity;
      try apply percent_text_not_NA;
      try apply dollar_text_not_NA;
      try (intros _; apply format_int_comma_not_NA);
      try discriminate
     | rewrite !append_assoc; reflexivity]).
Qed.

End Callers.

Section NewsBlock.
Context `{L : PyLib}.




End NewsBlock.

(** ** Integers that a double holds exactly *)

Lemma digits2_pos_bound (m : positive) (k : Z) :
  Z.pos m < 2 ^ k -> Z.pos (digits2_pos m) <= k.
Proof.
  revert k. induction m as [p IH | p IH |]; intros k Hk; cbn [digits2_pos].
  - assert (0 < k) by (destruct (Z_lt_le_dec 0 k); [assumption|];
      destruct (Z.eq_dec k 0) as [-> | ?];
      [cbn in Hk; lia | rewrite Z.pow_neg_r in Hk by lia; lia]).
    replace k with (Z.succ (k - 1)) in Hk by lia.
    rewrite Z.pow_succ_r in Hk by lia.
    specialize (IH (k - 1) ltac:(lia)). lia.
  - assert (0 < k) by (destruct (Z_lt_le_dec 0 k); [assumption|];
      destruct (Z.eq_dec k 0) as [-> | ?];
      [cbn in Hk; lia | rewrite Z.pow_neg_r in Hk by lia; lia]).
    replace k with (Z.succ (k - 1)) in Hk by lia.
    rewrite Z.pow_succ_r in Hk by lia.
    specialize (IH (k - 1) ltac:(lia)). lia.
  - destruct (Z_lt_le_dec 0 k); [lia|].
    destruct (Z.eq_dec k 0) as [-> | ?];
      [cbn in Hk; lia | rewrite Z.pow_neg_r in Hk by lia; lia].
Qed.

Lemma iter_xO_value (m k : positive) :
  Z.pos (Pos.iter xO m k) = Z.pos m * 2 ^ Z.pos k.
Proof.
  revert m. induction k as [| k IH] using Pos.peano_ind; intros m.
  - cbn. lia.
  - rewrite Pos.iter_succ. rewrite Pos2Z.inj_succ, Z.pow_succ_r by lia.
    change (Z.pos (Pos.iter xO m k)~0) with (2 * Z.pos (Pos.iter xO m k)).
    rewrite IH. lia.
Qed.

Lemma iter_xO_digits (m k : positive) :
  digits2_pos (Pos.iter xO m k) = (digits2_pos m + k)%positive.
Proof.
  induction k as [| k IH] using Pos.peano_ind.
  - cbn. lia.
  - rewrite Pos.iter_succ. cbn [digits2_pos]. rewrite IH. lia.
Qed.

Lemma binary_round_aux_exact (s : bool) (mz : positive) (ez : Z) :
  Z.pos (digits2_pos mz) = 53 -> -1074 <= ez <= 971 ->
  binary_round_aux F64.prec F64.emax s (Z.pos mz) ez loc_Exact =
  S754_finite s mz ez.
Proof.
  intros Hd He.
  unfold binary_round_aux, shr_fexp, fexp, emin, F64.prec, F64.emax.
  cbn [Zdigits2 shr_record_of_loc]. rewrite Hd.
  replace (Z.max (53 + ez - 53) (3 - 1024 - 53) - ez) with 0 by lia.
  cbn [shr shr_m loc_of_shr_record round_nearest_even Zdigits2
       shr_record_of_loc].
  rewrite Hd.
  replace (Z.max (53 + ez - 53) (3 - 1024 - 53) - ez) with 0 by lia.
  cbn [shr shr_m].
  replace (ez <=? 1024 - 53) with true by lia. reflexivity.
Qed.

(** An integer of at most 53 bits converts to a double without rounding. *)
Lemma binary_round_small (s : bool) (m : positive) :
  Z.pos m < 2 ^ 53 ->
  exists m' e',
    binary_round F64.prec F64.emax s m 0 = S754_finite s m' e' /\
    - 52 <= e' <= 0 /\ Z.pos m' = Z.pos m * 2 ^ (- e').
Proof.
  intros Hm. pose proof (digits2_pos_bound m 53 Hm) as Hd.
  assert (Hd1 : 1 <= Z.pos (digits2_pos m)) by lia.
  unfold binary_round, shl_align, fexp, emin.
  change F64.prec with 53. change F64.emax with 1024.
  replace (Z.max (Z.pos (digits2_pos m) + 0 - 53) (3 - 1024 - 53))
    with (Z.pos (digits2_pos m) - 53) by lia.
  rewrite Z.sub_0_r.
  destruct (Z.pos (digits2_pos m) - 53) as [|p|p] eqn:E; try lia.
  - exists m, 0. split; [|split; [lia | cbn; lia]].
    apply binary_round_aux_exact; lia.
  - exists (Pos.iter xO m p), (Z.neg p).
    split; [|split; [lia | now rewrite iter_xO_value]].
    apply binary_round_aux_exact; [|lia].
    rewrite iter_xO_digits. lia.
Qed.

Lemma div_round_half_even_exact (n q : Z) :
  0 < q -> div_round_half_even (n * q) q = n.
Proof.
  intros Hq. unfold div_round_half_even.
  rewrite Z.div_mul, Z.mod_mul by lia.
  destruct q; try lia. reflexivity.
Qed.

(** [float] of an [int] of magnitude below [2 ^ 53] is that integer. *)
Lemma float_of_small_int (z : Z) :
  Z.abs z < 2 ^ 53 ->
  (z = 0 /\ float_of_int z = Ok (S754_zero false)) \/
  exists m' e',
    float_of_int z = Ok (S754_finite (z <? 0) m' e') /\
    - 52 <= e' <= 0 /\ Z.pos m' = Z.abs z * 2 ^ (- e').
Proof.
  intros Hz. unfold float_of_int, F64.of_Z, binary_normalize.
  destruct z as [|m|m].
  - left. split; reflexivity.
  - right.
    destruct (binary_round_small false m Hz) as (m' & e' & -> & He & Hm').
    exists m', e'. repeat split; lia.
  - right.
    destruct (binary_round_small true m Hz) as (m' & e' & -> & He & Hm').
    exists m', e'. repeat split; lia.
Qed.

Section SmallIntegers.
Context `{L : PyLib}.

(** X20: an [int] of magnitude below [2 ^ 53] is rendered exactly by
    [format_integer]: the text is the integer itself with thousands
    separators. *)
Theorem format_integer_of_small_int (z : Z) :
  Z.abs z < 2 ^ 53 ->
  format_integer (VInt z) = Ok (format_int_comma z).
Proof.
  intros Hz. unfold format_integer, py_float.
  destruct (float_of_small_int z Hz)
    as [[-> ->] | (m' & e' & -> & He & Hm')]; [reflexivity|].
  cbn [bind py_round].
  replace (if 0 <=? e' then Z.pos m' * 2 ^ e'
           else div_round_half_even (Z.pos m') (2 ^ (- e')))
    with (Z.abs z).
  - replace (if z <? 0 then - Z.abs z else Z.abs z) with z
      by (destruct (Z.ltb_spec z 0); lia).
    reflexivity.
  - destruct (Z.leb_spec 0 e').
    + replace e' with 0 in * by lia. cbn in Hm'. lia.
    + rewrite Hm', div_round_half_even_exact
        by (apply Z.pow_pos_nonneg; lia). reflexivity.
Qed.

(** X21: [format_currency] of an [int] of magnitude below [2 ^ 53] is a
    dollar sign, the text [format_integer] gives for it, and ".00". *)
Theorem format_currency_of_small_int (z : Z) :
  Z.abs z < 2 ^ 53 ->
  format_currency (VInt z) = Ok ("$" ++ format_int_comma z ++ ".00")%string.
Proof.
  intros Hz. unfold format_currency, py_float.
  destruct (float_of_small_int z Hz)
    as [[-> ->] | (m' & e' & -> & He & Hm')]; [reflexivity|].
  cbn [bind]. unfold format_float_f.
  change (precision_parses 2) with true. change (INT_MAX <? 2) with false.
  cbn [negb bind]. change (Z.to_nat 2) with 2%nat. cbn [fixed_point].
  assert (Hs : scaled_magnitude m' e' 2 = Z.abs z * 100).
  { unfold scaled_magnitude. change (10 ^ Z.of_nat 2) with 100.
    destruct (Z.leb_spec 0 e').
    - replace e' with 0 in * by lia. cbn in Hm'. lia.
    - rewrite Hm'.
      replace (Z.abs z * 2 ^ (- e') * 100)
        with (Z.abs z * 100 * 2 ^ (- e')) by lia.
      apply div_round_half_even_exact. apply Z.pow_pos_nonneg; lia. }
  rewrite Hs. unfold render_fixed, format_int_comma.
  change (10 ^ Z.of_nat 2) with 100.
  rewrite Z.div_mul, Z.mod_mul by lia.
  do 2 f_equal. rewrite append_assoc. reflexivity.
Qed.

End SmallIntegers.

Lemma frac_digits_zero (d : nat) : frac_digits d 0 = repeat "0"%char d.
Proof.
  induction d as [|d IH]; [reflexivity|].
  cbn [frac_digits]. change (0 / 10) with 0. rewrite IH.
  change (digit_char (0 mod 10)) with "0"%char.
  now rewrite <- repeat_cons.
Qed.

(** X11: [format_ratio] of an [int] of magnitude below [2 ^ 53] is the
    integer written in full, followed, when [decimals] is positive, by a
    point and [decimals] zeros. *)
Theorem format_ratio_of_small_int (z decimals : Z) :
  Z.abs z < 2 ^ 53 -> 0 <= decimals <= INT_MAX ->
  format_ratio (VInt z) decimals =
  Ok ((if (z <? 0)%Z then "-" else "")
      ++ string_of_list_ascii (digits (Z.abs z))
      ++ (if (decimals =? 0)%Z then ""
          else "." ++ string_of_list_ascii
                        (repeat "0"%char (Z.to_nat decimals))))%string.
Proof.
  intros Hz Hd. unfold format_ratio.
  assert (Hp : precision_parses decimals = true)
    by (unfold precision_parses, PY_SSIZE_T_MAX, INT_MAX in *; lia).
  rewrite Hp. cbn [negb].
  assert (Hpow : 0 < 10 ^ Z.of_nat (Z.to_nat decimals))
    by (apply Z.pow_pos_nonneg; lia).
  assert (Htail : match Z.to_nat decimals with
                  | O => ""%string
                  | S _ => ("." ++ string_of_list_ascii
                                     (frac_digits (Z.to_nat decimals) 0))
                           %string
                  end =
                  (if (decimals =? 0)%Z then ""
                   else "." ++ string_of_list_ascii
                                 (repeat "0"%char (Z.to_nat decimals)))
                  %string).
  { rewrite frac_digits_zero. destruct (Z.eqb_spec decimals 0) as [-> | Hn].
    - reflexivity.
    - destruct (Z.to_nat decimals) eqn:E; [lia | reflexivity]. }
  destruct (float_of_small_int z Hz)
    as [[-> ->] | (m' & e' & -> & He & Hm')].
  - cbn [bind]. rewrite format_float_f_valid by exact Hd.
    cbn [fixed_point]. unfold render_fixed.
    rewrite Z.div_0_l, Z.mod_0_l by lia. now rewrite Htail.
  - cbn [bind]. rewrite format_float_f_valid by exact Hd.
    cbn [fixed_point].
    assert (Hs : scaled_magnitude m' e' (Z.to_nat decimals)
                 = Z.abs z * 10 ^ Z.of_nat (Z.to_nat decimals)).
    { unfold scaled_magnitude. destruct (Z.leb_spec 0 e').
      - replace e' with 0 in * by lia. cbn in Hm'.
        change (2 ^ 0) with 1. lia.
      - rewrite Hm'.
        replace (Z.abs z * 2 ^ (- e') * 10 ^ Z.of_nat (Z.to_nat decimals))
          with (Z.abs z * 10 ^ Z.of_nat (Z.to_nat decimals) * 2 ^ (- e'))
          by lia.
        apply div_round_half_even_exact. apply Z.pow_pos_nonneg; lia. }
    rewrite Hs. unfold render_fixed.
    rewrite Z.div_mul, Z.mod_mul by lia. now rewrite Htail.
Qed.

(** ** Dates with surrounding white space *)

Lemma lstrip_app (u v : list ascii) :
  lstrip (u ++ v) =
  if forallb is_space u then lstrip v else lstrip u ++ v.
Proof.
  induction u as [|c u IH]; cbn; [reflexivity|].
  destruct (is_space c); cbn; [exact IH | reflexivity].
Qed.

Lemma lstrip_head (l : list ascii) :
  match lstrip l with
  | [] => True
  | c :: _ => is_space c = false
  end.
Proof.
  induction l as [|c l IH]; cbn; [exact I|].
  destruct (is_space c) eqn:E; [exact IH | exact E].
Qed.

Lemma lstrip_fixed (l : list ascii) :
  match l with
  | [] => True
  | c :: _ => is_space c = false
  end ->
  lstrip l = l.
Proof. destruct l as [|c l]; cbn; [reflexivity | now intros ->]. Qed.

Lemma lstrip_idempotent (l : list ascii) : lstrip (lstrip l) = lstrip l.
Proof. apply lstrip_fixed, lstrip_head. Qed.

(** Stripping the end of a list keeps a head that is not white space. *)
Lemma rstrip_head (l : list ascii) :
  match l with
  | [] => True
  | c :: _ => is_space c = false
  end ->
  match rev (lstrip (rev l)) with
  | [] => True
  | c :: _ => is_space c = false
  end.
Proof.
  destruct l as [|c l]; [trivial|]. intros Hc. cbn [rev].
  rewrite lstrip_app. destruct (forallb is_space (rev l)).
  - cbn. rewrite Hc. cbn. exact Hc.
  - rewrite rev_app_distr. cbn. exact Hc.
Qed.

Lemma strip_idempotent (s : string) : strip (strip s) = strip s.
Proof.
  unfold strip. rewrite list_ascii_of_string_of_list_ascii.
  set (a := lstrip (list_ascii_of_string s)).
  rewrite (lstrip_fixed (rev (lstrip (rev a))))
    by (apply rstrip_head, lstrip_head).
  now rewrite rev_involutive, lstrip_idempotent.
Qed.

Section DateStrings.
Context `{L : PyLib}.

(** X22: white space around a date string does not matter: when the
    stripped string is not empty, both date parsers read the string as they
    read its stripped form. *)
Theorem parsers_ignore_surrounding_space (s : string) :
  strip s <> ""%string ->
  _parse_date (Some s) = _parse_date (Some (strip s)) /\
  _parse (Some s) = _parse (Some (strip s)).
Proof.
  intros Hs.
  assert (Hne : String.eqb s "" = false)
    by (apply String.eqb_neq; intros ->; now apply Hs).
  assert (Hne' : String.eqb (strip s) "" = false)
    by now apply String.eqb_neq.
  unfold _parse_date, _parse, falsy.
  rewrite Hne, Hne', strip_idempotent. split; reflexivity.
Qed.

End DateStrings.


(** ** The further statements at concrete inputs *)

Lemma format_percent_fraction_or_percent_witness :
  format_percent (L := plain_lib) (VFloat F64.lit_0_5) 2 false =
  format_percent (L := plain_lib) (VFloat lit_50) 2 false.
Proof.
  apply (format_percent_fraction_or_percent (L := plain_lib) F64.lit_0_5 2);
    vm_compute; reflexivity.
Defined.

Lemma format_percent_raises_iff_witness :
  format_percent (L := plain_lib) (VFloat F64.lit_0_5) (-1) false
  = Raise ValueError.
Proof.
  apply (format_percent_raises_iff (L := plain_lib)).
  right. split; [reflexivity|]. split; [now exists F64.lit_0_5|].
  unfold INT_MAX. lia.
Defined.

Lemma format_currency_shape_witness :
  format_currency (L := plain_lib) (VFloat lit_1234_5)
  = Ok "$1,234.50"%string.
Proof.
  destruct (format_currency_shape (L := plain_lib) (VFloat lit_1234_5)
              lit_1234_5 eq_refl eq_refl) as (H & _).
  rewrite H. reflexivity.
Defined.

Lemma format_currency_raises_iff_witness :
  format_currency (L := plain_lib) (VInt (2 ^ 1024)) = Raise OverflowError.
Proof.
  apply (format_currency_raises_iff (L := plain_lib)).
  split; [reflexivity|]. exists (2 ^ 1024). split; reflexivity.
Defined.

Lemma format_integer_raises_iff_witness :
  format_integer (L := plain_lib) (VFloat (S754_infinity false))
  = Raise OverflowError.
Proof.
  apply (format_integer_raises_iff (L := plain_lib)).
  split; [reflexivity|]. right. now exists false.
Defined.

Lemma format_ratio_of_number_witness :
  format_ratio (VInt 7) 2 = Ok "7.00"%string.
Proof.
  rewrite (format_ratio_of_number (L := plain_lib) (VInt 7) (F64.of_Z 7) 2);
    reflexivity.
Defined.

Lemma filter_recent_articles_raises_iff_witness :
  filter_recent_articles (L := plain_lib)
    (Some [article_dated (Attr (Some "2024-05-01"%string))])
    june_1_2024 1000000000
  = Raise OverflowError.
Proof.
  apply (filter_recent_articles_raises_iff (L := plain_lib)).
  split; [reflexivity|]. split; [cbn; lia | reflexivity].
Defined.

Lemma filter_recent_articles_narrowing_witness :
  (kept <- filter_recent_articles (L := plain_lib)
             (Some [article_dated (Attr (Some "2024-05-01"%string));
                    article_dated (Attr (Some "2024-01-01"%string))])
             june_1_2024 365 ;;
   filter_recent_articles (L := plain_lib) (Some kept) june_1_2024 120)
  = Ok [article_dated (Attr (Some "2024-05-01"%string))].
Proof.
  rewrite (filter_recent_articles_narrowing (L := plain_lib));
    [reflexivity | lia | cbn; lia | cbn; lia].
Defined.

Lemma filter_recent_transactions_composes_witness :
  exists valid,
    filter_valid_transactions
      (Some [transaction_of (Attr (Some "John Doe"%string))
               (Attr (Some "2024-05-01"%string));
             transaction_of (Attr (Some "Maria Chen"%string))
               (Attr (Some "2024-05-01"%string))]) = Ok valid /\
    valid = [transaction_of (Attr (Some "Maria Chen"%string))
               (Attr (Some "2024-05-01"%string))].
Proof.
  destruct (filter_recent_transactions_composes (L := plain_lib)
              (Some [transaction_of (Attr (Some "John Doe"%string))
                       (Attr (Some "2024-05-01"%string));
                     transaction_of (Attr (Some "Maria Chen"%string))
                       (Attr (Some "2024-05-01"%string))])
              june_1_2024 365 _ eq_refl) as (valid & Hv & -> & _).
  eexists. split; [exact Hv | reflexivity].
Defined.


Lemma price_analysis_block_unreliable_witness :
  price_analysis_block (L := plain_lib) (fun s => s) (Attr None)
  = Ok (price_header ++ unavailable)%string.
Proof.
  apply (price_analysis_block_unreliable (L := plain_lib)). now left.
Defined.

Lemma price_analysis_block_reliable_witness :
  exists ret vol lo hi volume,
    price_analysis_block (L := plain_lib) (fun s => s)
      (Attr (Some well_formed_record)) =
    Ok (price_header
        ++ "- **Total Return (1y):** " ++ ret ++ nl
        ++ "- **Volatility:** " ++ vol ++ nl
        ++ "- **Price Range (1y):** " ++ lo ++ " - " ++ hi ++ nl
        ++ "- **Average Volume:** " ++ volume ++ nl
        ++ "- **Trend Direction:** " ++ "up" ++ nl ++ nl)%string /\
    volume = "1,000"%string.
Proof.
  destruct (price_analysis_block_reliable (L := plain_lib) (fun s => s)
              (Attr (Some well_formed_record)) well_formed_record
              (F64.of_Z 15) (F64.of_Z 20) (F64.of_Z 100) (F64.of_Z 200)
              (F64.of_Z 1000) eq_refl eq_refl eq_refl eq_refl eq_refl
              eq_refl eq_refl)
    as (ret & vol & lo & hi & volume & Hb & _ & _ & _ & _ & _ & _ & _ & _
        & Hvol & _).
  exists ret, vol, lo, hi, volume. split; [exact Hb|].
  vm_compute in Hvol. now injection Hvol as <-.
Defined.

Lemma parsers_ignore_surrounding_space_witness :
  _parse_date (L := plain_lib) (Some " 2024-05-01 "%string) =
  _parse_date (L := plain_lib) (Some (strip " 2024-05-01 ")).
Proof.
  apply (parsers_ignore_surrounding_space (L := plain_lib)).
  vm_compute. discriminate.
Defined.

Lemma format_integer_of_small_int_witness :
  format_integer (L := plain_lib) (VInt 9007199254740991)
  = Ok "9,007,199,254,740,991"%string.
Proof.
  rewrite (format_integer_of_small_int (L := plain_lib)); [reflexivity|].
  cbn. lia.
Defined.

Lemma format_currency_of_small_int_witness :
  format_currency (L := plain_lib) (VInt (-1234567))
  = Ok "$-1,234,567.00"%string.
Proof.
  rewrite (format_currency_of_small_int (L := plain_lib)); [reflexivity|].
  cbn. lia.
Defined.

Lemma format_ratio_of_small_int_witness :
  format_ratio (VInt 42) 4 = Ok "42.0000"%string.
Proof.
  rewrite (format_ratio_of_small_int 42 4); [reflexivity | cbn; lia |].
  unfold INT_MAX. lia.
Defined.
